(** * confluence_summarizer: the section-aware comparison engine and the
      summary workflow, embedded from [agent/base.py] and
      [agent/summarizer.py].

    Layout: the Python built-ins the code calls ([PyStr]), the standard
    library's [difflib] ([Difflib]), then [base.py] ([Base]),
    [summarizer.py] ([Summarizer]), [core/persona.py] ([Persona]),
    [core/loader.py] ([Loader]) and [config.py] ([Config]); the
    properties come last. *)

From Stdlib Require Import ZArith Lia Ascii String List DecimalString.
From stdpp Require Import base strings list gmap sets.

Open Scope string_scope.
Open Scope list_scope.
Open Scope nat_scope.

(** ** Exceptions

    A Python call either returns or raises.  [Exn ty msg] stands for an
    exception object derived from [Exception] whose class is named [ty]
    and for which [str(e)] is [msg]; these are the exceptions an
    [except Exception] clause catches. *)

Inductive exn : Type :=
  | Exn (ty msg : string).

Definition exn_str (e : exn) : string :=
  match e with Exn _ msg => msg end.

Inductive result (A : Type) : Type :=
  | Ok (a : A)
  | Raise (e : exn).

Arguments Ok {A} a.
Arguments Raise {A} e.

(** Sequencing: the first exception raised ends the computation. *)
#[global] Instance result_bind : MBind result := fun A B k r =>
  match r with
  | Ok a => k a
  | Raise e => Raise e
  end.

#[global] Instance result_ret : MRet result := fun A a => Ok a.

(** ** Built-in string operations *)

Module PyStr.

(** Characters are the code points below 256. *)

(** [str.isspace] on one character: what [str.strip()] removes. *)
Definition is_space (c : ascii) : bool :=
  let n := nat_of_ascii c in
  ((9 <=? n) && (n <=? 13)) || ((28 <=? n) && (n <=? 32))
  || (n =? 133) || (n =? 160).

(** The line boundaries of [str.splitlines]. *)
Definition is_linebreak (c : ascii) : bool :=
  let n := nat_of_ascii c in
  ((10 <=? n) && (n <=? 13)) || ((28 <=? n) && (n <=? 30)) || (n =? 133).

Definition LF : ascii := ascii_of_nat 10.
Definition CR : ascii := ascii_of_nat 13.
Definition nl : string := String LF "".

(** Put a character in front of the first item of a list of pieces. *)
Definition cons_head (c : ascii) (l : list string) : list string :=
  match l with
  | [] => [String c ""]
  | h :: t => String c h :: t
  end.

(** [s.splitlines()]: no item for the text after a final line boundary,
    and a carriage return followed by a line feed is one boundary.
    [after_cr] says that the previous character was a carriage return. *)
Fixpoint splitlines_from (after_cr : bool) (s : string) : list string :=
  match s with
  | "" => []
  | String c r =>
      if after_cr && Ascii.eqb c LF then splitlines_from false r
      else if is_linebreak c then "" :: splitlines_from (Ascii.eqb c CR) r
      else cons_head c (splitlines_from false r)
  end.

Definition splitlines (s : string) : list string := splitlines_from false s.

(** [s.split(sep)] for a non-empty separator: leftmost matches, which
    do not overlap.  [skip] counts the characters of a matched separator
    that are still to be passed over. *)
Fixpoint split_from (sep : string) (skip : nat) (s : string) : list string :=
  match s with
  | "" => [""]
  | String c r =>
      match skip with
      | S k => split_from sep k r
      | O =>
          if String.prefix sep s
          then "" :: split_from sep (String.length sep - 1) r
          else cons_head c (split_from sep 0 r)
      end
  end.

Definition split (sep s : string) : list string := split_from sep 0 s.

(** [sep.join(items)] *)
Fixpoint join (sep : string) (items : list string) : string :=
  match items with
  | [] => ""
  | [x] => x
  | x :: rest => x +:+ sep +:+ join sep rest
  end.

(** [sub in s] *)
Fixpoint contains (sub s : string) : bool :=
  String.prefix sub s ||
  match s with
  | "" => false
  | String _ r => contains sub r
  end.

(** [c in chars] for one character *)
Fixpoint mem_char (c : ascii) (chars : string) : bool :=
  match chars with
  | "" => false
  | String d r => Ascii.eqb c d || mem_char c r
  end.

Fixpoint lstrip_by (p : ascii -> bool) (s : string) : string :=
  match s with
  | "" => ""
  | String c r => if p c then lstrip_by p r else s
  end.

Fixpoint rstrip_by (p : ascii -> bool) (s : string) : string :=
  match s with
  | "" => ""
  | String c r =>
      match rstrip_by p r with
      | "" => if p c then "" else String c ""
      | r' => String c r'
      end
  end.

Definition strip_by (p : ascii -> bool) (s : string) : string :=
  rstrip_by p (lstrip_by p s).

(** [s.strip()] *)
Definition strip (s : string) : string := strip_by is_space s.

(** [s.strip(chars)] *)
Definition strip_chars (chars s : string) : string :=
  strip_by (fun c => mem_char c chars) s.

(** [re.split(r"(?=lit)", s)] for a non-empty literal [lit]: the pattern
    matches the empty string at every position where [lit] starts, and
    the text is cut at each of them (Python 3.7 and later).  A match at
    position 0 leaves an empty first piece. *)
Fixpoint cut_inside (lit s : string) : list string :=
  match s with
  | "" => [""]
  | String c r =>
      if String.prefix lit r
      then String c "" :: cut_inside lit r
      else cons_head c (cut_inside lit r)
  end.

Definition re_split_lookahead (lit s : string) : list string :=
  if String.prefix lit s
  then "" :: cut_inside lit s
  else cut_inside lit s.

(** [str(n)] for a non-negative integer *)
Definition str_nat (n : nat) : string :=
  NilEmpty.string_of_uint (Nat.to_uint n).

(** [e in items] for a list of strings *)
Definition mem_string (x : string) (l : list string) : bool :=
  existsb (String.eqb x) l.

End PyStr.

(** ** [difflib] of the Python standard library

    [base.py] calls [difflib.unified_diff(old_lines, new_lines, lineterm='')].
    This is [Lib/difflib.py] of CPython 3.11, for sequences of strings and
    as [unified_diff] uses it: [SequenceMatcher(None, a, b)], so no junk
    predicate, the automatic junk heuristic on, and [n = 3] lines of
    context. *)

Module Difflib.

(** [Match(a, b, size)] *)
Definition Match : Type := nat * nat * nat.

Inductive tag : Type := replace | delete | insert | equal.

Definition is_equal (t : tag) : bool :=
  match t with equal => true | _ => false end.

(** [(tag, i1, i2, j1, j2)] *)
Definition opcode : Type := tag * nat * nat * nat * nat.

Definition op_tag (c : opcode) : tag := let '(t, _, _, _, _) := c in t.

(** A block of the work list of [get_matching_blocks]:
    [(alo, ahi, blo, bhi)]. *)
Definition block : Type := nat * nat * nat * nat.

(** [a[i1:i2]] *)
Definition slice {A : Type} (l : list A) (i1 i2 : nat) : list A :=
  take (i2 - i1) (drop i1 l).

(** *** [SequenceMatcher.__chain_b] *)

(** [for i, elt in enumerate(b): b2j.setdefault(elt, []).append(i)],
    with [i] the index of the first item of [b]. *)
Fixpoint index_from (i : nat) (b : list string)
    (b2j : gmap string (list nat)) : gmap string (list nat) :=
  match b with
  | [] => b2j
  | elt :: r =>
      index_from (S i) r (<[elt := default [] (b2j !! elt) ++ [i]]> b2j)
  end.

(** The junk set is empty ([isjunk] is [None]); with [autojunk] on, the
    items of a [b] of 200 items or more that occur more than
    [n // 100 + 1] times are deleted from [b2j]. *)
Definition chain_b (b : list string) : gmap string (list nat) :=
  let b2j := index_from 0 b ∅ in
  let n := length b in
  if 200 <=? n
  then
    let ntest := n / 100 + 1 in
    filter (fun kv : string * list nat => length kv.2 <= ntest) b2j
  else b2j.

(** [self.bjunk.__contains__]: no item is junk. *)
Definition isbjunk (x : string) : bool := false.

Section SequenceMatcher.

Variables a b : list string.

Let b2j : gmap string (list nat) := chain_b b.

(** [a[i] == b[j]], for indices within the lists *)
Definition same_item (i j : nat) : bool :=
  match a !! i, b !! j with
  | Some x, Some y => String.eqb x y
  | _, _ => false
  end.

Definition junk_at (j : nat) : bool :=
  match b !! j with
  | Some y => isbjunk y
  | None => false
  end.

(** *** [find_longest_match] *)

(** [j2len.get(j-1, 0)]: the key [-1] is never in the dictionary. *)
Definition j2lenget (j2len : gmap nat nat) (j : nat) : nat :=
  match j with
  | O => 0
  | S j' => default 0 (j2len !! j')
  end.

(** The inner loop over the indices [js] of [a[i]] in [b]. *)
Fixpoint scan_row (i blo bhi : nat) (j2len : gmap nat nat) (js : list nat)
    (newj2len : gmap nat nat) (best : Match) : gmap nat nat * Match :=
  match js with
  | [] => (newj2len, best)
  | j :: js' =>
      if j <? blo then scan_row i blo bhi j2len js' newj2len best
      else if bhi <=? j then (newj2len, best)
      else
        let k := j2lenget j2len j + 1 in
        let newj2len := <[j := k]> newj2len in
        let '(_, _, bestsize) := best in
        if bestsize <? k
        then scan_row i blo bhi j2len js' newj2len (i + 1 - k, j + 1 - k, k)
        else scan_row i blo bhi j2len js' newj2len best
  end.

(** [b2j.get(a[i], nothing)] *)
Definition indices_of (i : nat) : list nat :=
  match a !! i with
  | Some x => default [] (b2j !! x)
  | None => []
  end.

(** The outer loop, [for i in range(alo, ahi)]. *)
Definition scan_rows (alo ahi blo bhi : nat) : gmap nat nat * Match :=
  fold_left
    (fun (st : gmap nat nat * Match) (i : nat) =>
       scan_row i blo bhi st.1 (indices_of i) ∅ st.2)
    (seq alo (ahi - alo))
    (∅, (alo, blo, 0)).

(** The two loops that grow the match at its low end; [junk] says
    whether the loop takes junk items or items that are not junk. *)
Fixpoint extend_low (junk : bool) (alo blo besti bestj bestsize : nat)
    : Match :=
  match besti, bestj with
  | S i', S j' =>
      if (alo <? besti) && (blo <? bestj)
         && Bool.eqb (junk_at j') junk && same_item i' j'
      then extend_low junk alo blo i' j' (S bestsize)
      else (besti, bestj, bestsize)
  | _, _ => (besti, bestj, bestsize)
  end.

(** The two loops that grow the match at its high end; [room] is
    [ahi - (besti + bestsize)], the number of items of [a] left above
    the match. *)
Fixpoint extend_high (junk : bool) (ahi bhi besti bestj : nat)
    (room bestsize : nat) : Match :=
  match room with
  | O => (besti, bestj, bestsize)
  | S room' =>
      if (besti + bestsize <? ahi) && (bestj + bestsize <? bhi)
         && Bool.eqb (junk_at (bestj + bestsize)) junk
         && same_item (besti + bestsize) (bestj + bestsize)
      then extend_high junk ahi bhi besti bestj room' (S bestsize)
      else (besti, bestj, bestsize)
  end.

Definition grow (junk : bool) (alo ahi blo bhi : nat) (m : Match) : Match :=
  let '(besti, bestj, bestsize) := m in
  let '(besti, bestj, bestsize) :=
    extend_low junk alo blo besti bestj bestsize in
  extend_high junk ahi bhi besti bestj (ahi - (besti + bestsize)) bestsize.

Definition find_longest_match (alo ahi blo bhi : nat) : Match :=
  let best := (scan_rows alo ahi blo bhi).2 in
  grow true alo ahi blo bhi (grow false alo ahi blo bhi best).

(** *** [get_matching_blocks] *)

(** [while queue: ...]: the head of [queue] is the item that
    [queue.pop()] takes.  One unit of [fuel] per iteration; the blocks
    not yet examined are returned with the matches found. *)
Fixpoint matching_loop (fuel : nat) (queue : list block)
    (matching_blocks : list Match) : list block * list Match :=
  match fuel with
  | O => (queue, matching_blocks)
  | S fuel' =>
      match queue with
      | [] => ([], matching_blocks)
      | (alo, ahi, blo, bhi) :: queue =>
          let '(i, j, k) := find_longest_match alo ahi blo bhi in
          if k =? 0 then matching_loop fuel' queue matching_blocks
          else
            let queue :=
              if (alo <? i) && (blo <? j)
              then (alo, i, blo, j) :: queue else queue in
            let queue :=
              if (i + k <? ahi) && (j + k <? bhi)
              then (i + k, ahi, j + k, bhi) :: queue else queue in
            matching_loop fuel' queue (matching_blocks ++ [(i, j, k)])
      end
  end.

(** Tuple comparison, as [list.sort] uses it. *)
Definition match_leb (x y : Match) : bool :=
  let '(i1, j1, k1) := x in
  let '(i2, j2, k2) := y in
  (i1 <? i2) || ((i1 =? i2) && ((j1 <? j2) || ((j1 =? j2) && (k1 <=? k2)))).

Fixpoint insert_sorted (x : Match) (l : list Match) : list Match :=
  match l with
  | [] => [x]
  | y :: r => if match_leb x y then x :: l else y :: insert_sorted x r
  end.

(** [matching_blocks.sort()] *)
Definition sort_matches (l : list Match) : list Match :=
  foldr insert_sorted [] l.

(** The loop that merges adjacent blocks, with [(i1, j1, k1)] the block
    compared against. *)
Fixpoint collapse (i1 j1 k1 : nat) (l : list Match) : list Match :=
  match l with
  | [] => if k1 =? 0 then [] else [(i1, j1, k1)]
  | (i2, j2, k2) :: r =>
      if (i1 + k1 =? i2) && (j1 + k1 =? j2)
      then collapse i1 j1 (k1 + k2) r
      else
        (if k1 =? 0 then [] else [(i1, j1, k1)]) ++ collapse i2 j2 k2 r
  end.

(** Every iteration of the loop that finds a match takes at least one
    item of [a] out of the blocks left, so [2 * len(a) + 1] iterations
    are enough ([matching_loop_done]). *)
Definition get_matching_blocks : list Match :=
  let la := length a in
  let lb := length b in
  let found := (matching_loop (2 * la + 1) [(0, la, 0, lb)] []).2 in
  collapse 0 0 0 (sort_matches found) ++ [(la, lb, 0)].

(** *** [get_opcodes] *)

Fixpoint opcodes_from (i j : nat) (blocks : list Match) : list opcode :=
  match blocks with
  | [] => []
  | (ai, bj, size) :: r =>
      let gap :=
        if (i <? ai) && (j <? bj) then [(replace, i, ai, j, bj)]
        else if i <? ai then [(delete, i, ai, j, bj)]
        else if j <? bj then [(insert, i, ai, j, bj)]
        else [] in
      let same :=
        if size =? 0 then [] else [(equal, ai, ai + size, bj, bj + size)] in
      gap ++ same ++ opcodes_from (ai + size) (bj + size) r
  end.

Definition get_opcodes : list opcode := opcodes_from 0 0 get_matching_blocks.

(** *** [get_grouped_opcodes] *)

(** [codes[0] = tag, max(i1, i2-n), i2, max(j1, j2-n), j2] *)
Definition trim_first (n : nat) (codes : list opcode) : list opcode :=
  match codes with
  | (equal, i1, i2, j1, j2) :: r =>
      (equal, Nat.max i1 (i2 - n), i2, Nat.max j1 (j2 - n), j2) :: r
  | _ => codes
  end.

(** [codes[-1] = tag, i1, min(i2, i1+n), j1, min(j2, j1+n)] *)
Fixpoint trim_last (n : nat) (codes : list opcode) : list opcode :=
  match codes with
  | [] => []
  | [(equal, i1, i2, j1, j2)] =>
      [(equal, i1, Nat.min i2 (i1 + n), j1, Nat.min j2 (j1 + n))]
  | c :: r => c :: trim_last n r
  end.

(** The loop over [codes]; [group] is the group being built. *)
Fixpoint group_loop (n : nat) (codes : list opcode) (group : list opcode)
    : list (list opcode) :=
  match codes with
  | [] =>
      match group with
      | [] => []
      | [(equal, _, _, _, _)] => []
      | _ => [group]
      end
  | (t, i1, i2, j1, j2) :: r =>
      if is_equal t && (n + n <? i2 - i1)
      then
        (group ++ [(t, i1, Nat.min i2 (i1 + n), j1, Nat.min j2 (j1 + n))])
        :: group_loop n r [(t, Nat.max i1 (i2 - n), i2, Nat.max j1 (j2 - n), j2)]
      else group_loop n r (group ++ [(t, i1, i2, j1, j2)])
  end.

Definition get_grouped_opcodes (n : nat) : list (list opcode) :=
  let codes := get_opcodes in
  let codes := match codes with [] => [(equal, 0, 1, 0, 1)] | _ => codes end in
  group_loop n (trim_last n (trim_first n codes)) [].

(** *** [unified_diff] *)

Definition _format_range_unified (start stop : nat) : string :=
  let beginning := start + 1 in
  let length := stop - start in
  if length =? 1 then PyStr.str_nat beginning
  else
    let beginning := if length =? 0 then beginning - 1 else beginning in
    PyStr.str_nat beginning +:+ "," +:+ PyStr.str_nat length.

(** The lines one opcode contributes to a hunk. *)
Definition opcode_lines (c : opcode) : list string :=
  let '(t, i1, i2, j1, j2) := c in
  match t with
  | equal => map (String.append " ") (slice a i1 i2)
  | replace =>
      map (String.append "-") (slice a i1 i2)
      ++ map (String.append "+") (slice b j1 j2)
  | delete => map (String.append "-") (slice a i1 i2)
  | insert => map (String.append "+") (slice b j1 j2)
  end.

Definition hunk (group : list opcode) : list string :=
  match group, last group with
  | (_, f1, _, f3, _) :: _, Some (_, _, l2, _, l4) =>
      ("@@ -" +:+ _format_range_unified f1 l2
       +:+ " +" +:+ _format_range_unified f3 l4 +:+ " @@")
      :: concat (map opcode_lines group)
  | _, _ => []
  end.

(** [list(unified_diff(a, b, lineterm=''))]: the two file header lines
    come before the first hunk, and there is none without a hunk. *)
Definition unified_diff : list string :=
  match get_grouped_opcodes 3 with
  | [] => []
  | groups => "--- " :: "+++ " :: concat (map hunk groups)
  end.

End SequenceMatcher.

End Difflib.

(** ** [agent/base.py] *)

Module Base.

(** The keyword arguments of [summarize], as the first message of a run
    carries them: [json.dumps] of a dictionary with these seven keys. *)
Record params : Type := {
  space_key : string;
  page_id : option string;
  include_children : bool;
  persona : string;
  context : option string;
  export : bool;
  export_dir : string
}.

(** The text of a message.  [Dumps p] is the JSON document that
    [json.dumps] makes of [p]; [Text s] is a plain sentence, as the
    workflow writes for its progress and error messages.  Each of them
    begins with a capital letter followed by a lowercase one, so it is
    not a JSON document. *)
Inductive content : Type :=
  | Dumps (p : params)
  | Text (s : string).

Inductive role : Type := Human | AI.

Record message : Type := {
  msg_role : role;
  msg_content : content
}.

Definition HumanMessage (c : content) : message :=
  {| msg_role := Human; msg_content := c |}.
Definition AIMessage (c : content) : message :=
  {| msg_role := AI; msg_content := c |}.

(** [json.loads] *)
Definition json_loads (c : content) : result params :=
  match c with
  | Dumps p => Ok p
  | Text _ =>
      Raise (Exn "JSONDecodeError" "Expecting value: line 1 column 1 (char 0)")
  end.

(** A value of the metadata dictionary: a string, or [None]. *)
Definition meta : Type := gmap string (option string).

(** [langchain]'s [Document] *)
Record Document : Type := {
  page_content : string;
  doc_metadata : meta
}.

(** One item of [stats["section_changes"]]. *)
Module Change.
Record t : Type := {
  section : string;
  old_line_count : nat;
  new_line_count : nat;
  diff_line_count : nat;
  change_summary : string
}.
End Change.

(** The dictionary [_calculate_comparison_stats] returns. *)
Module Stats.
Record t : Type := {
  old_line_count : nat;
  new_line_count : nat;
  line_difference : Z;
  changed_sections : nat;
  added_sections : nat;
  removed_sections : nat;
  section_changes : list Change.t
}.
End Stats.

Record AgentState : Type := {
  messages : list message;
  documents : list Document;
  summary : option string;
  metadata : meta;
  export_path : option string;
  previous_summary : option string;
  diff_result : option string;
  comparison_stats : option Stats.t
}.

(** [re.split(r"(?=## )", content)] *)
Definition split_sections (text : string) : list string :=
  PyStr.re_split_lookahead "## " text.

(** [s.split("\n")[0].strip("# ")] *)
Definition title_of (s : string) : string :=
  PyStr.strip_chars "# " (hd "" (PyStr.split PyStr.nl s)).

(** [s.split("\n")[1:]] *)
Definition body_of (s : string) : list string :=
  tail (PyStr.split PyStr.nl s).

(** [{s.split("\n")[0].strip("# ") for s in sections if s.strip()}] *)
Definition section_titles (sections : list string) : gset string :=
  list_to_set
    (title_of <$> filter (fun s => PyStr.strip s <> "") sections).

(** [next(s for s in sections if s.split("\n")[0].strip("# ") == section)] *)
Definition next_titled (section : string) (sections : list string)
    : result string :=
  match List.find (fun s => String.eqb (title_of s) section) sections with
  | Some s => Ok s
  | None => Raise (Exn "StopIteration" "")
  end.

Section Agent.

(** [chain.invoke({"old": old, "new": new})] in
    [_analyze_section_changes]: the prompt piped into the language model
    and the output parser.  It returns text or raises. *)
Variable analysis_chain : string -> string -> result string.

Definition _analyze_section_changes (old_section new_section : string)
    : string :=
  match analysis_chain old_section new_section with
  | Ok analysis => PyStr.strip analysis
  | Raise e => "Error analyzing changes: " +:+ exn_str e
  end.

(** The body of [for section in old_section_titles & new_section_titles],
    which appends to [stats["section_changes"]]. *)
Definition compare_section (old_sections new_sections : list string)
    (section : string) (changes : list Change.t) : result (list Change.t) :=
  old_section ← next_titled section old_sections;
  new_section ← next_titled section new_sections;
  let old_lines := body_of old_section in
  let new_lines := body_of new_section in
  let diff := Difflib.unified_diff old_lines new_lines in
  match diff with
  | [] => Ok changes
  | _ =>
      let change_summary :=
        _analyze_section_changes
          (PyStr.join PyStr.nl old_lines) (PyStr.join PyStr.nl new_lines) in
      Ok (changes ++
          [ {| Change.section := section;
               Change.old_line_count := length old_lines;
               Change.new_line_count := length new_lines;
               Change.diff_line_count := length diff;
               Change.change_summary := change_summary |} ])
  end.

Fixpoint compare_sections (old_sections new_sections : list string)
    (titles : list string) (changes : list Change.t)
    : result (list Change.t) :=
  match titles with
  | [] => Ok changes
  | section :: rest =>
      changes ← compare_section old_sections new_sections section changes;
      compare_sections old_sections new_sections rest changes
  end.

(** The three sets of titles the counters are taken from. *)
Definition old_section_titles (old_content : string) : gset string :=
  section_titles (split_sections old_content).
Definition new_section_titles (new_content : string) : gset string :=
  section_titles (split_sections new_content).

(** A Python set is iterated in an order the language does not fix;
    [elements] fixes one. *)
Definition _calculate_comparison_stats (old_content new_content : string)
    : result Stats.t :=
  let old_lines := PyStr.splitlines old_content in
  let new_lines := PyStr.splitlines new_content in
  let old_sections := split_sections old_content in
  let new_sections := split_sections new_content in
  let old_titles := section_titles old_sections in
  let new_titles := section_titles new_sections in
  changes ←
    compare_sections old_sections new_sections
      (elements (old_titles ∩ new_titles)) [];
  Ok {| Stats.old_line_count := length old_lines;
        Stats.new_line_count := length new_lines;
        Stats.line_difference :=
          (Z.of_nat (length new_lines) - Z.of_nat (length old_lines))%Z;
        Stats.changed_sections := size (old_titles ∩ new_titles);
        Stats.added_sections := size (new_titles ∖ old_titles);
        Stats.removed_sections := size (old_titles ∖ new_titles);
        Stats.section_changes := changes |}.

End Agent.

End Base.

(** ** [agent/summarizer.py] *)

Module Summarizer.

Import Base.

(** *** The names the module binds

    What the [import] statements at the top of [summarizer.py] bind,
    and the class the module defines. *)
Definition module_globals : list string :=
  [ "Dict"; "Optional"; "Path"; "datetime"; "json";
    "HumanMessage"; "AIMessage";
    "ChatPromptTemplate"; "MessagesPlaceholder"; "StrOutputParser";
    "StateGraph"; "END"; "Config"; "BaseConfluenceAgent"; "AgentState";
    "ConfluenceSummarizerAgent" ].

(** The built-in names the stages use. *)
Definition builtins : list string :=
  [ "Exception"; "len"; "list"; "sorted"; "str" ].

(** *** The world outside the run context *)

(** The files of the persistent store, by directory and file name, and
    the number of times the clock has been read. *)
Record World : Type := {
  files : gmap (string * string) string;
  now_calls : nat
}.

(** [str(directory / name)] *)
Definition path_str (p : string * string) : string :=
  p.1 +:+ "/" +:+ p.2.

(** [fnmatch]: [*] stands for any run of characters and [?] for one
    character; bracket expressions are not covered. *)
Fixpoint fnmatch (pattern name : string) : bool :=
  match pattern with
  | "" => match name with "" => true | _ => false end
  | String c pattern' =>
      if Ascii.eqb c "*" then
        (fix star (n : string) : bool :=
           fnmatch pattern' n
           || match n with
              | "" => false
              | String _ n' => star n'
              end) name
      else
        match name with
        | "" => false
        | String d name' =>
            (Ascii.eqb c "?" || Ascii.eqb c d) && fnmatch pattern' name'
        end
  end.

(** [directory.glob(pattern)]: the matching files, in an order the file
    system chooses. *)
Definition glob (w : World) (directory pattern : string)
    : list (string * string) :=
  filter
    (fun p : string * string => p.1 = directory /\ fnmatch pattern p.2 = true)
    (map_to_list (files w)).*1.

Fixpoint insert_desc (p : string * string) (l : list (string * string))
    : list (string * string) :=
  match l with
  | [] => [p]
  | q :: r =>
      if String.leb (path_str q) (path_str p)
      then p :: l else q :: insert_desc p r
  end.

(** [sorted(paths, reverse=True)] *)
Definition sorted_reverse (l : list (string * string))
    : list (string * string) :=
  foldr insert_desc [] l.

(** *** Stages as computations

    A stage reads and updates the run context and the world, and it may
    raise.  What it has written before it raises stays written: the run
    context is one dictionary that every stage mutates in place. *)
Definition Store : Type := AgentState * World.

Definition M (A : Type) : Type := Store -> Store * result A.

#[global] Instance M_ret : MRet M := fun A a s => (s, Ok a).

#[global] Instance M_bind : MBind M := fun A B k m s =>
  match m s with
  | (s', Ok a) => k a s'
  | (s', Raise e) => (s', Raise e)
  end.

Definition raise {A : Type} (e : exn) : M A := fun s => (s, Raise e).

Definition lift {A : Type} (r : result A) : M A := fun s => (s, r).

Definition get_state : M AgentState := fun s => (s, Ok s.1).

Definition get_world : M World := fun s => (s, Ok s.2).

Definition update (f : AgentState -> AgentState) : M unit :=
  fun s => ((f s.1, s.2), Ok tt).

Definition update_world (f : World -> World) : M unit :=
  fun s => ((s.1, f s.2), Ok tt).

(** [try: body except Exception as e: handler(e)] *)
Definition try_except (body : M unit) (handler : exn -> M unit) : M unit :=
  fun s =>
    match body s with
    | (s', Ok tt) => (s', Ok tt)
    | (s', Raise e) => handler e s'
    end.

(** Looking up a global name: the module's own names, then the
    built-ins, else [NameError]. *)
Definition use (name : string) : M unit :=
  if PyStr.mem_string name module_globals || PyStr.mem_string name builtins
  then mret tt
  else raise (Exn "NameError" ("name '" +:+ name +:+ "' is not defined")).

(** Assignments to the keys of the run context. *)
Definition set_messages (v : list message) (st : AgentState) : AgentState :=
  {| messages := v; documents := documents st; summary := summary st;
     metadata := metadata st; export_path := export_path st;
     previous_summary := previous_summary st;
     diff_result := diff_result st;
     comparison_stats := comparison_stats st |}.

Definition set_documents (v : list Document) (st : AgentState) : AgentState :=
  {| messages := messages st; documents := v; summary := summary st;
     metadata := metadata st; export_path := export_path st;
     previous_summary := previous_summary st;
     diff_result := diff_result st;
     comparison_stats := comparison_stats st |}.

Definition set_summary (v : option string) (st : AgentState) : AgentState :=
  {| messages := messages st; documents := documents st; summary := v;
     metadata := metadata st; export_path := export_path st;
     previous_summary := previous_summary st;
     diff_result := diff_result st;
     comparison_stats := comparison_stats st |}.

Definition set_metadata (v : meta) (st : AgentState) : AgentState :=
  {| messages := messages st; documents := documents st;
     summary := summary st; metadata := v; export_path := export_path st;
     previous_summary := previous_summary st;
     diff_result := diff_result st;
     comparison_stats := comparison_stats st |}.

Definition set_export_path (v : option string) (st : AgentState)
    : AgentState :=
  {| messages := messages st; documents := documents st;
     summary := summary st; metadata := metadata st; export_path := v;
     previous_summary := previous_summary st;
     diff_result := diff_result st;
     comparison_stats := comparison_stats st |}.

Definition set_diff_result (v : option string) (st : AgentState)
    : AgentState :=
  {| messages := messages st; documents := documents st;
     summary := summary st; metadata := metadata st;
     export_path := export_path st;
     previous_summary := previous_summary st;
     diff_result := v;
     comparison_stats := comparison_stats st |}.

Definition set_comparison_stats (v : option Stats.t) (st : AgentState)
    : AgentState :=
  {| messages := messages st; documents := documents st;
     summary := summary st; metadata := metadata st;
     export_path := export_path st;
     previous_summary := previous_summary st;
     diff_result := diff_result st;
     comparison_stats := v |}.

(** [state["messages"].append(AIMessage(content=text))] *)
Definition say (text : string) : M unit :=
  _ ← use "AIMessage";
  update (fun st => set_messages (messages st ++ [AIMessage (Text text)]) st).

(** [messages = state["messages"]; last_message = messages[-1];
    params = json.loads(last_message.content)] *)
Definition read_params : M params :=
  st ← get_state;
  match last (messages st) with
  | None => raise (Exn "IndexError" "list index out of range")
  | Some last_message =>
      _ ← use "json";
      lift (json_loads (msg_content last_message))
  end.

(** A value put into an f-string: [None] prints as its name. *)
Definition fmt (v : option string) : string := default "None" v.

(** [if v:] for a string or [None] *)
Definition truthy (v : option string) : bool :=
  match v with
  | Some (String _ _) => true
  | _ => false
  end.

(** [f"{z:+d}"] *)
Definition fmt_signed (z : Z) : string :=
  match z with
  | Zneg p => "-" +:+ PyStr.str_nat (Pos.to_nat p)
  | _ => "+" +:+ PyStr.str_nat (Z.to_nat z)
  end.

(** [state["metadata"].get("space_key", "unknown")] and
    [state["metadata"].get("id")] *)
Definition meta_space_key (md : meta) : option string :=
  default (Some "unknown") (md !! "space_key").
Definition meta_id (md : meta) : option string :=
  default None (md !! "id").

(** The stem of an export's file name, before the time stamp. *)
Definition file_stem (md : meta) : string :=
  if truthy (meta_id md)
  then fmt (meta_space_key md) +:+ "_" +:+ fmt (meta_id md) +:+ "_"
  else fmt (meta_space_key md) +:+ "_space_".

(** [text.split("## Summary")[1].split("##")[0].strip()] *)
Definition extract_summary (text : string) : string :=
  PyStr.strip
    (hd "" (PyStr.split "##" (nth 1 (PyStr.split "## Summary" text) ""))).

Section Workflow.

(** The collaborators of a run. *)

(** [self.document_loader.load_content(space_key, page_id,
    include_children)] *)
Variable load_content :
  string -> option string -> bool -> result (list Document).

(** [self.persona_manager.personas] *)
Variable personas : gmap string string.

(** [chain.invoke] in [_generate_summary]: persona, persona prompt,
    context, messages and input text to summary. *)
Variable summary_chain :
  string -> string -> option string -> list message -> string -> result string.

(** [chain.invoke] in [_analyze_section_changes] *)
Variable analysis_chain : string -> string -> result string.

(** [datetime.now().strftime(format)] at the [k]-th reading of the
    clock, and [os.getlogin()]. *)
Variable strftime_now : nat -> string -> string.
Variable getlogin : string.

(** [datetime.now().strftime(format)] *)
Definition now (format : string) : M string :=
  _ ← use "datetime";
  w ← get_world;
  _ ← update_world (fun w =>
         {| files := files w; now_calls := S (now_calls w) |});
  mret (strftime_now (now_calls w) format).

(** [PersonaManager.get_persona_prompt] *)
Definition get_persona_prompt (persona : string) : result string :=
  match personas !! persona with
  | Some prompt => Ok prompt
  | None => Raise (Exn "ValueError" ("Unknown persona: " +:+ persona))
  end.

Definition _load_content : M unit :=
  try_except
    (params ← read_params;
     documents ←
       lift (load_content (space_key params) (page_id params)
               (include_children params));
     _ ← update (set_documents documents);
     match documents with
     | [] => mret tt
     | first :: _ => update (set_metadata (doc_metadata first))
     end)
    (fun e => say ("Error loading content: " +:+ exn_str e)).

Definition _prepare_documents : M unit :=
  try_except
    (_ ← get_state;
     say "Documents loaded successfully. Preparing for summarization...")
    (fun e => say ("Error preparing documents: " +:+ exn_str e)).

Definition _generate_summary : M unit :=
  try_except
    (params ← read_params;
     persona_prompt ← lift (get_persona_prompt (persona params));
     _ ← use "ChatPromptTemplate";
     _ ← use "MessagesPlaceholder";
     _ ← use "StrOutputParser";
     st ← get_state;
     summary ←
       lift (summary_chain (persona params) persona_prompt (context params)
               (messages st)
               (PyStr.join PyStr.nl (page_content <$> documents st)));
     _ ← update (set_summary (Some summary));
     say "Summary generated successfully.")
    (fun e => say ("Error generating summary: " +:+ exn_str e)).

(** [state["summary"]] where a string is needed: [None] has no
    [splitlines]. *)
Definition summary_text (st : AgentState) : result string :=
  match summary st with
  | Some s => Ok s
  | None =>
      Raise (Exn "AttributeError"
               "'NoneType' object has no attribute 'splitlines'")
  end.

Definition _compare_summaries : M unit :=
  try_except
    (params ← read_params;
     _ ← use "Path";
     st ← get_state;
     let pattern := file_stem (metadata st) +:+ "*.md" in
     _ ← use "sorted";
     w ← get_world;
     let previous_files := sorted_reverse (glob w (export_dir params) pattern) in
     _ ← use "len";
     if 1 <? length previous_files then
       match previous_files !! 1 with
       | None => raise (Exn "IndexError" "list index out of range")
       | Some previous_file =>
           match files w !! previous_file with
           | None => raise (Exn "FileNotFoundError" (path_str previous_file))
           | Some text =>
               if PyStr.contains "## Summary" text then
                 let previous_summary := extract_summary text in
                 new_summary ← lift (summary_text st);
                 stats ←
                   lift (_calculate_comparison_stats analysis_chain
                           previous_summary new_summary);
                 _ ← update (set_comparison_stats (Some stats));
                 _ ← use "list";
                 _ ← use "unified_diff";
                 let diff :=
                   Difflib.unified_diff (PyStr.splitlines previous_summary)
                     (PyStr.splitlines new_summary) in
                 match diff with
                 | [] => say "No differences from previous summary."
                 | _ =>
                     _ ← update
                           (set_diff_result (Some (PyStr.join PyStr.nl diff)));
                     say "Differences from previous summary found."
                 end
               else mret tt
           end
       end
     else mret tt)
    (fun e => say ("Error comparing summaries: " +:+ exn_str e)).

(** One row of the table of section changes. *)
Definition change_row (change : Change.t) : string :=
  "| " +:+ Change.section change
  +:+ " | " +:+ PyStr.str_nat (Change.new_line_count change)
  +:+ " | " +:+ fmt_signed (Z.of_nat (Change.diff_line_count change))
  +:+ " | " +:+ Change.change_summary change +:+ " |" +:+ PyStr.nl.

Definition stats_text (stats : Stats.t) : string :=
  PyStr.nl +:+ "## Comparison Statistics" +:+ PyStr.nl
  +:+ PyStr.nl +:+ "### Overview" +:+ PyStr.nl
  +:+ "| Metric | Value |" +:+ PyStr.nl
  +:+ "|--------|-------|" +:+ PyStr.nl
  +:+ "| Total Lines | " +:+ PyStr.str_nat (Stats.new_line_count stats)
  +:+ " (Change: " +:+ fmt_signed (Stats.line_difference stats) +:+ ") |"
  +:+ PyStr.nl
  +:+ "| Changed Sections | " +:+ PyStr.str_nat (Stats.changed_sections stats)
  +:+ " |" +:+ PyStr.nl
  +:+ "| Added Sections | " +:+ PyStr.str_nat (Stats.added_sections stats)
  +:+ " |" +:+ PyStr.nl
  +:+ "| Removed Sections | " +:+ PyStr.str_nat (Stats.removed_sections stats)
  +:+ " |" +:+ PyStr.nl
  +:+ PyStr.nl +:+ "### Section Changes" +:+ PyStr.nl
  +:+ "| Section | Lines | Change | Summary |" +:+ PyStr.nl
  +:+ "|---------|-------|--------|---------|" +:+ PyStr.nl
  +:+ String.concat "" (change_row <$> Stats.section_changes stats).

Definition diff_text (diff : string) : string :=
  PyStr.nl +:+ "## Changes from Previous Summary" +:+ PyStr.nl
  +:+ PyStr.nl +:+ "```diff" +:+ PyStr.nl
  +:+ diff +:+ PyStr.nl +:+ "```" +:+ PyStr.nl.

Definition _export_summary : M unit :=
  try_except
    (params ← read_params;
     if negb (export params) then mret tt
     else
       _ ← use "Path";
       timestamp ← now "%Y%m%d_%H%M%S";
       st ← get_state;
       let filename := file_stem (metadata st) +:+ timestamp +:+ ".md" in
       let title :=
         fmt (default (Some "Confluence Content") (metadata st !! "title")) in
       _ ← use "os";
       let author := getlogin in
       date ← now "%Y-%m-%d %H:%M:%S";
       let content :=
         "# " +:+ title +:+ PyStr.nl
         +:+ PyStr.nl +:+ "## Metadata" +:+ PyStr.nl
         +:+ "- Author: " +:+ author +:+ PyStr.nl
         +:+ "- Date: " +:+ date +:+ PyStr.nl
         +:+ PyStr.nl +:+ "## Summary" +:+ PyStr.nl
         +:+ fmt (summary st) +:+ PyStr.nl +:+ PyStr.nl in
       let content :=
         match comparison_stats st with
         | Some stats => content +:+ stats_text stats
         | None => content
         end in
       let content :=
         if truthy (diff_result st)
         then content +:+ diff_text (fmt (diff_result st))
         else content in
       generated ← now "%Y-%m-%d %H:%M:%S";
       let content :=
         content +:+ PyStr.nl +:+ "---" +:+ PyStr.nl
         +:+ "*Generated on: " +:+ generated +:+ "*" +:+ PyStr.nl in
       let file_path := (export_dir params, filename) in
       _ ← update_world (fun w =>
              {| files := <[file_path := content]> (files w);
                 now_calls := now_calls w |});
       _ ← update (set_export_path (Some (path_str file_path)));
       say ("Summary exported to: " +:+ path_str file_path))
    (fun e => say ("Error exporting summary: " +:+ exn_str e)).

(** *** The workflow graph *)

Definition END : string := "__end__".

Record StateGraph : Type := {
  nodes : list (string * M unit);
  edges : list (string * string);
  entry_point : option string
}.

Definition empty_graph : StateGraph :=
  {| nodes := []; edges := []; entry_point := None |}.

Definition add_node (name : string) (action : M unit) (g : StateGraph)
    : StateGraph :=
  {| nodes := nodes g ++ [(name, action)]; edges := edges g;
     entry_point := entry_point g |}.

Definition add_edge (start stop : string) (g : StateGraph) : StateGraph :=
  {| nodes := nodes g; edges := edges g ++ [(start, stop)];
     entry_point := entry_point g |}.

Definition set_entry_point (name : string) (g : StateGraph) : StateGraph :=
  {| nodes := nodes g; edges := edges g; entry_point := Some name |}.

Definition _create_agent_graph : StateGraph :=
  let workflow := empty_graph in
  let workflow := add_node "load_content" _load_content workflow in
  let workflow := add_node "prepare_documents" _prepare_documents workflow in
  let workflow := add_node "generate_summary" _generate_summary workflow in
  let workflow := add_node "compare_summaries" _compare_summaries workflow in
  let workflow := add_node "export_summary" _export_summary workflow in
  let workflow := add_edge "load_content" "prepare_documents" workflow in
  let workflow := add_edge "prepare_documents" "generate_summary" workflow in
  let workflow := add_edge "generate_summary" "compare_summaries" workflow in
  let workflow := add_edge "compare_summaries" "export_summary" workflow in
  let workflow := add_edge "export_summary" END workflow in
  set_entry_point "load_content" workflow.




(** The initial run context of [summarize]. *)
Definition initial_state (p : params) : AgentState :=
  {| messages := [HumanMessage (Dumps p)];
     documents := [];
     summary := None;
     metadata := ∅;
     export_path := None;
     previous_summary := None;
     diff_result := None;
     comparison_stats := None |}.


End Workflow.

End Summarizer.


(** ** [core/persona.py] *)

Module Persona.

(** [self.personas]: the prompts by persona name. *)
Definition personas : Type := gmap string string.

(** The four prompts of [__init__]; the lines after the first keep the
    indentation of the source text. *)
Definition technical_prompt : string :=
  PyStr.join PyStr.nl
    [ "You are a technical expert focused on implementation details, code, and technical architecture.";
      "            Your summaries should:";
      "            1. Highlight technical specifications and requirements";
      "            2. Preserve code examples and technical details";
      "            3. Focus on implementation approaches and patterns";
      "            4. Note any technical constraints or limitations";
      "            5. Emphasize system architecture and design decisions" ].

Definition business_prompt : string :=
  PyStr.join PyStr.nl
    [ "You are a business analyst focused on objectives, requirements, and business value.";
      "            Your summaries should:";
      "            1. Highlight business objectives and goals";
      "            2. Focus on requirements and use cases";
      "            3. Emphasize business impact and value";
      "            4. Note any business constraints or risks";
      "            5. Summarize key stakeholders and their needs" ].

Definition project_prompt : string :=
  PyStr.join PyStr.nl
    [ "You are a project manager focused on timelines, deliverables, and project status.";
      "            Your summaries should:";
      "            1. Highlight project milestones and deadlines";
      "            2. Focus on deliverables and their status";
      "            3. Emphasize dependencies and blockers";
      "            4. Note any risks or issues";
      "            5. Summarize resource allocation and team assignments" ].

Definition user_prompt : string :=
  PyStr.join PyStr.nl
    [ "You are a user experience expert focused on usability and user needs.";
      "            Your summaries should:";
      "            1. Highlight user workflows and interactions";
      "            2. Focus on user requirements and needs";
      "            3. Emphasize usability considerations";
      "            4. Note any user feedback or pain points";
      "            5. Summarize user personas and scenarios" ].

(** [PersonaManager.__init__] *)
Definition init : personas :=
  <["user" := user_prompt]>
    (<["project" := project_prompt]>
       (<["business" := business_prompt]>
          (<["technical" := technical_prompt]> ∅))).

(** [get_persona_prompt] is [Summarizer.get_persona_prompt]. *)

(** [add_persona]: [self.personas[name] = prompt] *)
Definition add_persona (name prompt : string) (ps : personas) : personas :=
  <[name := prompt]> ps.

(** [remove_persona]: the personas afterwards, and the outcome. *)
Definition remove_persona (name : string) (ps : personas)
    : personas * result unit :=
  match ps !! name with
  | None => (ps, Raise (Exn "ValueError" ("Unknown persona: " +:+ name)))
  | Some _ => (delete name ps, Ok tt)
  end.

(** [list_personas]: [self.personas.copy()], a dictionary of its own. *)
Definition list_personas (ps : personas) : gmap string string := ps.

End Persona.

(** ** [core/loader.py] *)

Module Loader.

Import Base.

Section ConfluenceDocumentLoader.

(** A page as the Confluence client returns it, the three calls of the
    client that [load_content] makes, each with
    [expand='body.storage,version'], and [_create_document]. *)
Variable page : Type.
Variable get_page_by_id : string -> result page.
Variable get_child_pages : string -> result (list page).
Variable get_all_pages_from_space : string -> result (list page).
Variable _create_document : page -> result Document.

(** [for page in pages: documents.append(self._create_document(page))] *)
Fixpoint create_documents (pages : list page) (documents : list Document)
    : result (list Document) :=
  match pages with
  | [] => Ok documents
  | p :: rest =>
      d ← _create_document p;
      create_documents rest (documents ++ [d])
  end.

(** The body of the [try] block. *)
Definition load_pages (space_key : string) (page_id : option string)
    (include_children : bool) : result (list Document) :=
  let documents := [] in
  match page_id with
  | Some (String c r as id) =>
      p ← get_page_by_id id;
      d ← _create_document p;
      let documents := documents ++ [d] in
      if include_children then
        children ← get_child_pages id;
        create_documents children documents
      else Ok documents
  | _ =>
      pages ← get_all_pages_from_space space_key;
      create_documents pages documents
  end.

(** [load_content]: any exception is raised again as an [Exception]
    with the text of the first one. *)
Definition load_content (space_key : string) (page_id : option string)
    (include_children : bool) : result (list Document) :=
  match load_pages space_key page_id include_children with
  | Ok documents => Ok documents
  | Raise e =>
      Raise (Exn "Exception"
               ("Error loading content from Confluence: " +:+ exn_str e))
  end.

End ConfluenceDocumentLoader.

End Loader.

(** ** [config.py] *)

Module Config.

(** [os.environ] *)
Definition environ : Type := gmap string string.

(** [if v:] for what [os.getenv] returns *)
Definition truthy (v : option string) : bool :=
  match v with
  | Some (String _ _) => true
  | _ => false
  end.

(** *** [load_secrets] *)

(** [s.split(sep, 1)] for a non-empty separator: the text before the
    first match and the text after it, or the text alone. *)
Fixpoint split_once (sep s : string) : list string :=
  match s with
  | "" => [""]
  | String c r =>
      if String.prefix sep s
      then [""; String.substring (String.length sep)
                  (String.length s - String.length sep) s]
      else PyStr.cons_head c (split_once sep r)
  end.

Definition has_nul (s : string) : bool := PyStr.mem_char (ascii_of_nat 0) s.

(** [os.environ[key] = value] on Linux: a null character is refused
    when the two strings are converted, and an empty name by
    [setenv]. *)
Definition setitem (key value : string) (env : environ) : result environ :=
  if has_nul key || has_nul value
  then Raise (Exn "ValueError" "embedded null byte")
  else if String.eqb key ""
  then Raise (Exn "OSError" "[Errno 22] Invalid argument")
  else Ok (<[key := value]> env).

(** The body of [for line in f]: the environment afterwards, and the
    outcome.  What was assigned before a line raises stays assigned. *)
Fixpoint load_lines (lines : list string) (env : environ)
    : environ * result unit :=
  match lines with
  | [] => (env, Ok tt)
  | line :: rest =>
      let line := PyStr.strip line in
      if negb (String.eqb line "") && negb (String.prefix "#" line) then
        match split_once "=" line with
        | [key; value] =>
            match setitem (PyStr.strip key) (PyStr.strip value) env with
            | Ok env' => load_lines rest env'
            | Raise e => (env, Raise e)
            end
        | _ =>
            (env,
             Raise (Exn "ValueError"
                      "not enough values to unpack (expected 2, got 1)"))
        end
      else load_lines rest env
  end.

(** The file [secrets]: absent, or the lines that reading it gives,
    each with its line end, and then the exception that opening or
    reading it raises, if any. *)
Inductive secrets_file : Type :=
  | NoFile
  | Lines (lines : list string) (error : option exn).

Definition load_secrets (secrets : secrets_file) (env : environ)
    : environ * result unit :=
  match secrets with
  | NoFile => (env, Ok tt)
  | Lines lines error =>
      match load_lines lines env, error with
      | (env', Ok tt), Some e => (env', Raise e)
      | out, _ => out
      end
  end.

(** *** [Config] *)

(** The fields hold what [os.getenv] returns: a string or [None] for
    a call without default, a string for a call with one. *)
Record t : Type := {
  confluence_url : option string;
  confluence_username : option string;
  confluence_api_token : option string;
  azure_openai_api_key : option string;
  azure_openai_endpoint : option string;
  azure_openai_deployment_name : option string;
  azure_openai_api_version : string;
  export_dir : string
}.

Definition required_vars : list string :=
  [ "CONFLUENCE_URL"; "CONFLUENCE_USERNAME"; "CONFLUENCE_API_TOKEN";
    "AZURE_OPENAI_API_KEY"; "AZURE_OPENAI_ENDPOINT";
    "AZURE_OPENAI_DEPLOYMENT_NAME" ].

(** [[var for var in required_vars if not os.getenv(var)]] *)
Definition missing_vars (env : environ) : list string :=
  List.filter (fun var => negb (truthy (env !! var))) required_vars.

Definition from_env (env : environ) : result t :=
  match missing_vars env with
  | (_ :: _) as missing =>
      Raise (Exn "ValueError"
               ("Missing required environment variables: "
                +:+ PyStr.join ", " missing +:+ PyStr.nl
                +:+ "Please create a 'secrets' file with these variables or set them in your environment."))
  | [] =>
      Ok {| confluence_url := env !! "CONFLUENCE_URL";
            confluence_username := env !! "CONFLUENCE_USERNAME";
            confluence_api_token := env !! "CONFLUENCE_API_TOKEN";
            azure_openai_api_key := env !! "AZURE_OPENAI_API_KEY";
            azure_openai_endpoint := env !! "AZURE_OPENAI_ENDPOINT";
            azure_openai_deployment_name :=
              env !! "AZURE_OPENAI_DEPLOYMENT_NAME";
            azure_openai_api_version :=
              default "2024-02-15-preview" (env !! "AZURE_OPENAI_API_VERSION");
            export_dir := default "summaries" (env !! "EXPORT_DIR") |}
  end.


Section Validate.

(** [Path(p).exists()] and [Path(p).is_dir()] *)
Variable path_exists : string -> bool.
Variable path_is_dir : string -> bool.


End Validate.

End Config.

(** * Properties *)

Import Base.

(** ** The comparison engine as a function of its titles *)

(** The change recorded for [section], when both versions have a piece
    with that title; [None] when the two bodies give an empty diff. *)
Definition change_of (analysis_chain : string -> string -> result string)
    (old_sections new_sections : list string) (section : string)
    : option Change.t :=
  match next_titled section old_sections, next_titled section new_sections with
  | Ok old_section, Ok new_section =>
      let old_lines := body_of old_section in
      let new_lines := body_of new_section in
      let diff := Difflib.unified_diff old_lines new_lines in
      match diff with
      | [] => None
      | _ =>
          Some {| Change.section := section;
                  Change.old_line_count := length old_lines;
                  Change.new_line_count := length new_lines;
                  Change.diff_line_count := length diff;
                  Change.change_summary :=
                    _analyze_section_changes analysis_chain
                      (PyStr.join PyStr.nl old_lines)
                      (PyStr.join PyStr.nl new_lines) |}
      end
  | _, _ => None
  end.

(** The titles of the reported section changes. *)
Definition changed_titles (stats : Stats.t) : gset string :=
  list_to_set (Change.section <$> Stats.section_changes stats).



(** ** Documents of the scenarios *)


(** Section ["## A"] with body lines [x], [y], and with [x], [z]. *)
Definition a_x_y : string :=
  "## A" +:+ PyStr.nl +:+ "x" +:+ PyStr.nl +:+ "y".
Definition a_x_z : string :=
  "## A" +:+ PyStr.nl +:+ "x" +:+ PyStr.nl +:+ "z".


(** An annotator that answers, and one that times out. *)
Definition answering_chain : string -> string -> result string :=
  fun _ _ => Ok "Reworded.".


(** The signed line count of a changed section, as the specification
    words it: [diff_line_count] is the new line count minus the old. *)
Definition signed_diff_line_count
    (chain : string -> string -> result string) (old new : string) : Prop :=
  forall stats,
    _calculate_comparison_stats chain old new = Ok stats ->
    forall c, c ∈ Stats.section_changes stats ->
      Z.of_nat (Change.diff_line_count c)
      = (Z.of_nat (Change.new_line_count c)
         - Z.of_nat (Change.old_line_count c))%Z.









(** ** A run context, a store and collaborators for the scenarios *)

Definition docs_params : params :=
  {| space_key := "DOCS"; page_id := Some "42"; include_children := false;
     persona := "technical"; context := None; export := true;
     export_dir := "summaries" |}.

Definition docs_metadata : meta :=
  <["space_key" := Some "DOCS"]>
    (<["id" := Some "42"]> (<["title" := Some "Guide"]> ∅)).

(** The text of an export whose summary is [summary]. *)
Definition export_text (summary : string) : string :=
  "# Guide" +:+ PyStr.nl +:+ PyStr.nl
  +:+ "## Metadata" +:+ PyStr.nl
  +:+ "- Author: user" +:+ PyStr.nl +:+ PyStr.nl
  +:+ "## Summary" +:+ PyStr.nl +:+ summary +:+ PyStr.nl +:+ PyStr.nl.

(** The run context after a summary was generated, as the compare and
    export stages take it when called with the parameters as the last
    message. *)
Definition generated_state : AgentState :=
  {| messages := [HumanMessage (Dumps docs_params)];
     documents := [];
     summary := Some "Hello";
     metadata := docs_metadata;
     export_path := None;
     previous_summary := None;
     diff_result := None;
     comparison_stats := None |}.

(** A store with one earlier export, and one with two. *)
Definition one_export : Summarizer.World :=
  {| Summarizer.files :=
       <[("summaries", "DOCS_42_20240101_000000.md") := export_text "Hi"]> ∅;
     Summarizer.now_calls := 0 |}.

Definition two_exports : Summarizer.World :=
  {| Summarizer.files :=
       <[("summaries", "DOCS_42_20231231_000000.md") := export_text "Hey"]>
         (Summarizer.files one_export);
     Summarizer.now_calls := 0 |}.


Definition one_persona : gmap string string :=
  <["technical" := "You are a technical expert."]> ∅.

Definition answering_summary_chain
    : string -> string -> option string -> list message -> string
      -> result string :=
  fun _ _ _ _ _ => Ok "Hello".

Definition fixed_clock : nat -> string -> string :=
  fun _ _ => "20240102_030405".




Import Summarizer.

(** The last message of the run context carries the parameters [p]. *)
Definition carries_params (st : AgentState) (p : params) : Prop :=
  exists m, last (messages st) = Some m /\ msg_content m = Dumps p.




(** ** What a stage does to the messages *)

(** A computation that leaves the messages as they are. *)
Definition quiet {A : Type} (m : Summarizer.M A) : Prop :=
  forall s, messages (m s).1.1 = messages s.1.

(** A computation that appends at most one message when it returns,
    and none when it raises. *)
Definition appends_one {A : Type} (m : Summarizer.M A) : Prop :=
  forall s, exists l,
    messages (m s).1.1 = messages s.1 ++ l
    /\ match (m s).2 with
       | Ok _ => length l <= 1
       | Raise _ => l = []
       end.

(** A stage returns, and it has kept the messages it found and appended
    at most one. *)
Definition stage_ok (stage : Summarizer.M unit) : Prop :=
  forall s,
    (stage s).2 = Ok tt
    /\ exists l,
         messages (stage s).1.1 = messages s.1 ++ l /\ length l <= 1.

(** ** More collaborators and run contexts for examples *)

(** The parameters of [docs_params], without export. *)
Definition no_export_params : params :=
  {| space_key := "DOCS"; page_id := Some "42"; include_children := false;
     persona := "technical"; context := None; export := false;
     export_dir := "summaries" |}.

Definition guide_document : Document :=
  {| page_content := "<p>Guide</p>"; doc_metadata := docs_metadata |}.

(** A loader that returns one page. *)
Definition one_page_loader
    : string -> option string -> bool -> result (list Document) :=
  fun _ _ _ => Ok [guide_document].

(** ** A Confluence client for examples *)

(** Pages are named by their identifiers; page ["42"] has the children
    ["43"] and ["44"], and the space has these three pages. *)
Definition client_page : string -> result string :=
  fun id => Ok id.
Definition client_children : string -> result (list string) :=
  fun _ => Ok ["43"; "44"].
Definition client_space : string -> result (list string) :=
  fun _ => Ok ["42"; "43"; "44"].
Definition page_document (id : string) : Document :=
  {| page_content := "<p>" +:+ id +:+ "</p>";
     doc_metadata := <["id" := Some id]> ∅ |}.
Definition client_document : string -> result Document :=
  fun id => Ok (page_document id).

(** A client that is out of reach. *)
Definition down_page : string -> result string :=
  fun _ => Raise (Exn "ConnectionError" "down").

(** ** An environment and a secrets file for examples *)

Definition full_environ : Config.environ :=
  <["CONFLUENCE_URL" := "https://example.atlassian.net"]>
    (<["CONFLUENCE_USERNAME" := "user@example.com"]>
       (<["CONFLUENCE_API_TOKEN" := "token"]>
          (<["AZURE_OPENAI_API_KEY" := "key"]>
             (<["AZURE_OPENAI_ENDPOINT" := "https://example.openai.azure.com"]>
                (<["AZURE_OPENAI_DEPLOYMENT_NAME" := "gpt-4"]> ∅))))).


(** ** The lines of a text compared with themselves *)

(** The indices of [x] in [b], counted from [o], in ascending order. *)
Fixpoint positions (x : string) (o : nat) (b : list string) : list nat :=
  match b with
  | [] => []
  | y :: r =>
      if String.eqb y x then o :: positions x (S o) r
      else positions x (S o) r
  end.

(** Line [i] of [l] is looked for in [l]: it is not one of the popular
    lines that the matcher leaves out of its index. *)
Definition live (l : list string) (i : nat) : bool :=
  match Difflib.indices_of l l i with
  | [] => false
  | _ :: _ => true
  end.

(** The number of lines up to line [i], line [i] included, that are
    looked for without a break. *)
Fixpoint run (l : list string) (i : nat) : nat :=
  match i with
  | O => if live l 0 then 1 else 0
  | S i' => if live l i then S (run l i') else 0
  end.

(** The same for the line before line [i]. *)
Definition prev_run (l : list string) (i : nat) : nat :=
  match i with
  | O => 0
  | S i' => run l i'
  end.

(** What the inner loop of [find_longest_match] writes for [j]. *)
Definition cell (j2len : gmap nat nat) (j : nat) : nat :=
  Difflib.j2lenget j2len j + 1.

(** The dictionary after the inner loop has gone through [js]. *)
Definition fill (j2len : gmap nat nat) (js : list nat) (new : gmap nat nat)
    : gmap nat nat :=
  foldl (fun m j => <[j := cell j2len j]> m) new js.

(** What holds of [j2len] before row [i]: its lengths stay within the
    runs of lines looked for, and on the diagonal it has the run. *)
Definition row_inv (l : list string) (i : nat) (j2len : gmap nat nat) : Prop :=
  (forall j, Difflib.j2lenget j2len j <= prev_run l j)
  /\ (forall j, Difflib.j2lenget j2len j <= prev_run l i)
  /\ Difflib.j2lenget j2len i = prev_run l i.

(** What holds of the best match before row [i]: it lies on the
    diagonal, below row [i], and no run that ended before is longer. *)
Definition best_inv (l : list string) (i : nat) (best : Difflib.Match) : Prop :=
  let '(besti, bestj, bestsize) := best in
  besti = bestj /\ besti + bestsize <= i
  /\ forall i', i' < i -> run l i' <= bestsize.

(** Two versions of a text with the sections ["A"] and ["B"], which
    differ in section ["B"] only. *)
Definition a_b_old : string :=
  "## A" +:+ PyStr.nl +:+ "x" +:+ PyStr.nl +:+ "y" +:+ PyStr.nl
  +:+ "## B" +:+ PyStr.nl +:+ "old".
Definition a_b_new : string :=
  "## A" +:+ PyStr.nl +:+ "x" +:+ PyStr.nl +:+ "y" +:+ PyStr.nl
  +:+ "## B" +:+ PyStr.nl +:+ "new".

(** ** The work list of [get_matching_blocks] *)

(** A block of the work list has its low ends below its high ends. *)
Definition valid_block (blk : Difflib.block) : Prop :=
  let '(alo, ahi, blo, bhi) := blk in alo <= ahi /\ blo <= bhi.

(** Twice the lines of [a] in the blocks of the work list, and one for
    each block. *)
Fixpoint queue_measure (queue : list Difflib.block) : nat :=
  match queue with
  | [] => 0
  | (alo, ahi, _, _) :: rest => 2 * (ahi - alo) + 1 + queue_measure rest
  end.

(** A match lies within a block. *)
Definition match_within (blk : Difflib.block) (m : Difflib.Match) : Prop :=
  let '(alo, ahi, blo, bhi) := blk in
  let '(i, j, k) := m in
  alo <= i /\ i + k <= ahi /\ blo <= j /\ j + k <= bhi.

(** The lengths of a dictionary of the inner loop stay within the
    [rows] gone through and within the columns from [blo]. *)
Definition lengths_within (rows blo : nat) (j2len : gmap nat nat) : Prop :=
  forall j v, j2len !! j = Some v -> v <= rows /\ v + blo <= j + 1.

(** * Proofs *)

(** ** The comparison engine never raises *)

Lemma next_titled_found (t : string) (sections : list string) :
  t ∈ section_titles sections ->
  exists s, next_titled t sections = Ok s /\ title_of s = t.
Proof.
  unfold section_titles, next_titled.
  rewrite elem_of_list_to_set, list_elem_of_fmap.
  intros (s & -> & Hs). apply list_elem_of_filter in Hs as [_ Hs].
  destruct (List.find _ sections) as [s'|] eqn:Hfind.
  - exists s'. split; [reflexivity|].
    apply List.find_some in Hfind as [_ Heq]. now apply String.eqb_eq in Heq.
  - exfalso. apply list_elem_of_In in Hs.
    pose proof (List.find_none _ _ Hfind _ Hs) as Hne. simpl in Hne.
    now rewrite String.eqb_refl in Hne.
Qed.

Lemma next_titled_title (t s : string) (sections : list string) :
  next_titled t sections = Ok s -> title_of s = t /\ s ∈ sections.
Proof.
  unfold next_titled. destruct (List.find _ sections) as [s'|] eqn:Hfind; [|discriminate].
  intros [= <-]. apply List.find_some in Hfind as [Hin Heq].
  split; [now apply String.eqb_eq in Heq | now apply list_elem_of_In].
Qed.

Lemma compare_section_change_of chain olds news section changes :
  section ∈ section_titles olds -> section ∈ section_titles news ->
  compare_section chain olds news section changes
  = Ok (changes ++ option_list (change_of chain olds news section)).
Proof.
  intros Ho Hn.
  destruct (next_titled_found _ _ Ho) as (os & Hos & _).
  destruct (next_titled_found _ _ Hn) as (ns & Hns & _).
  unfold compare_section, change_of. rewrite Hos, Hns. simpl.
  destruct (Difflib.unified_diff (body_of os) (body_of ns)); simpl.
  - now rewrite app_nil_r.
  - reflexivity.
Qed.

Lemma compare_sections_change_of chain olds news titles changes :
  Forall (fun t => t ∈ section_titles olds /\ t ∈ section_titles news) titles ->
  compare_sections chain olds news titles changes
  = Ok (changes ++ omap (change_of chain olds news) titles).
Proof.
  intros Hall. revert changes.
  induction Hall as [|t titles [Ho Hn] _ IH]; intros changes; simpl.
  - now rewrite app_nil_r.
  - rewrite compare_section_change_of by assumption. simpl.
    rewrite IH. f_equal.
    destruct (change_of chain olds news t); simpl.
    + now rewrite <- app_assoc.
    + now rewrite app_nil_r.
Qed.

(** The engine never raises: every common title is the title of a piece
    of either version, so both [next] calls find one. *)
Lemma calculate_comparison_stats_ok chain old_content new_content :
  _calculate_comparison_stats chain old_content new_content
  = Ok {| Stats.old_line_count := length (PyStr.splitlines old_content);
          Stats.new_line_count := length (PyStr.splitlines new_content);
          Stats.line_difference :=
            (Z.of_nat (length (PyStr.splitlines new_content))
             - Z.of_nat (length (PyStr.splitlines old_content)))%Z;
          Stats.changed_sections :=
            size (old_section_titles old_content
                  ∩ new_section_titles new_content);
          Stats.added_sections :=
            size (new_section_titles new_content
                  ∖ old_section_titles old_content);
          Stats.removed_sections :=
            size (old_section_titles old_content
                  ∖ new_section_titles new_content);
          Stats.section_changes :=
            omap (change_of chain (split_sections old_content)
                    (split_sections new_content))
              (elements (old_section_titles old_content
                         ∩ new_section_titles new_content)) |}.
Proof.
  unfold _calculate_comparison_stats, old_section_titles, new_section_titles.
  rewrite compare_sections_change_of.
  - reflexivity.
  - apply Forall_forall. intros t Ht.
    apply elem_of_elements, elem_of_intersection in Ht. exact Ht.
Qed.

Lemma change_of_section chain olds news t c :
  change_of chain olds news t = Some c -> Change.section c = t.
Proof.
  unfold change_of.
  destruct (next_titled t olds); [|discriminate].
  destruct (next_titled t news); [|discriminate].
  destruct (Difflib.unified_diff _ _); [discriminate|].
  now intros [= <-].
Qed.

Lemma changed_titles_omap chain olds news (titles : list string) t :
  t ∈ Change.section <$> omap (change_of chain olds news) titles ->
  t ∈ titles /\ exists c, change_of chain olds news t = Some c.
Proof.
  rewrite list_elem_of_fmap. intros (c & -> & Hc).
  apply list_elem_of_omap in Hc as (t & Ht & Hc).
  rewrite (change_of_section _ _ _ _ _ Hc). eauto.
Qed.

(** ** Claims about the comparison engine *)





(** C10: the report's [line_difference] is its [new_line_count] minus
    its [old_line_count], and the two counts are the numbers of lines of
    the whole new and old texts. *)
Theorem line_difference_of_full_texts
    (chain : string -> string -> result string) (old new : string) :
  exists stats,
    _calculate_comparison_stats chain old new = Ok stats
    /\ Stats.old_line_count stats = length (PyStr.splitlines old)
    /\ Stats.new_line_count stats = length (PyStr.splitlines new)
    /\ Stats.line_difference stats
       = (Z.of_nat (Stats.new_line_count stats)
          - Z.of_nat (Stats.old_line_count stats))%Z.
Proof.
  eexists. split; [apply calculate_comparison_stats_ok|]. simpl. auto.
Qed.



(** *** String facts *)







(** *** Titles *)




(** *** Unchanged sections *)




(** *** The scenario with one changed line *)

(** C3, as stated, fails: for bodies [x], [y] and [x], [z] the reported
    [diff_line_count] is not the new line count minus the old one. *)
Lemma signed_diff_line_count_fails :
  ~ signed_diff_line_count answering_chain a_x_y a_x_z.
Proof.
  intros H.
  specialize (H _ (calculate_comparison_stats_ok _ _ _)).
  specialize
    (H {| Change.section := "A"; Change.old_line_count := 2;
          Change.new_line_count := 2; Change.diff_line_count := 6;
          Change.change_summary := "Reworded." |}).
  discriminate H. vm_compute. apply list_elem_of_here.
Qed.

(** C3, amended: for a common title whose old body is the lines [x],
    [y] and whose new body is [x], [z], the line differ gives the
    unified diff of two file header lines, one hunk header and the lines
    [" x"], ["-y"], ["+z"] (context, delete, insert); the report has a
    section change for that title with [old_line_count] 2,
    [new_line_count] 2 and [diff_line_count] 6, the number of lines of
    that unified diff; the change record holds no edit script. *)
Theorem one_changed_line_section
    (chain : string -> string -> result string)
    (old new title old_section new_section : string) :
  title ∈ old_section_titles old ∩ new_section_titles new ->
  next_titled title (split_sections old) = Ok old_section ->
  next_titled title (split_sections new) = Ok new_section ->
  body_of old_section = ["x"; "y"] ->
  body_of new_section = ["x"; "z"] ->
  Difflib.unified_diff (body_of old_section) (body_of new_section)
  = ["--- "; "+++ "; "@@ -1,2 +1,2 @@"; " x"; "-y"; "+z"]
  /\ exists stats c,
       _calculate_comparison_stats chain old new = Ok stats
       /\ c ∈ Stats.section_changes stats
       /\ Change.section c = title
       /\ Change.old_line_count c = 2
       /\ Change.new_line_count c = 2
       /\ Change.diff_line_count c = 6
       /\ Change.diff_line_count c
          = length (Difflib.unified_diff (body_of old_section)
                      (body_of new_section)).
Proof.
  intros Ht Ho Hn Hbo Hbn. rewrite Hbo, Hbn.
  split; [reflexivity|].
  eexists. eexists. split; [apply calculate_comparison_stats_ok|]. simpl.
  split.
  - apply list_elem_of_omap. exists title. split.
    + now apply elem_of_elements.
    + unfold change_of. rewrite Ho, Hn, Hbo, Hbn. reflexivity.
  - simpl. auto.
Qed.

Lemma one_changed_line_section_witness :
  exists stats c,
    _calculate_comparison_stats answering_chain a_x_y a_x_z = Ok stats
    /\ c ∈ Stats.section_changes stats
    /\ Change.section c = "A"
    /\ Change.diff_line_count c = 6.
Proof.
  destruct (one_changed_line_section answering_chain a_x_y a_x_z "A"
              a_x_y a_x_z) as (_ & stats & c & H1 & H2 & H3 & _ & _ & H6 & _).
  - apply (bool_decide_eq_true_1 _). vm_compute. reflexivity.
  - reflexivity.
  - reflexivity.
  - reflexivity.
  - reflexivity.
  - exists stats, c. auto.
Defined.

(** *** The splitter *)




(** ** Claims about the workflow *)

Lemma read_params_ok st w p :
  carries_params st p -> read_params (st, w) = ((st, w), Ok p).
Proof.
  intros (m & Hlast & Hm). unfold read_params.
  cbv [mbind M_bind get_state]. cbn [fst snd]. rewrite Hlast.
  cbv [mbind M_bind use lift]. cbn. now rewrite Hm.
Qed.

Lemma use_bound name :
  (PyStr.mem_string name module_globals || PyStr.mem_string name builtins) = true ->
  use name = mret tt.
Proof. unfold use. now intros ->. Qed.

Lemma use_unbound name :
  (PyStr.mem_string name module_globals || PyStr.mem_string name builtins) = false ->
  use name
  = raise (Exn "NameError" ("name '" +:+ name +:+ "' is not defined")).
Proof. unfold use. now intros ->. Qed.

(** The two names the stages use and the module does not bind. *)
Lemma os_unbound :
  use "os" = raise (Exn "NameError" "name 'os' is not defined").
Proof. reflexivity. Qed.

Lemma unified_diff_unbound :
  use "unified_diff"
  = raise (Exn "NameError" "name 'unified_diff' is not defined").
Proof. reflexivity. Qed.

Ltac step_stage :=
  cbv [mbind M_bind mret M_ret lift get_state get_world update update_world
       raise say try_except];
  cbn [fst snd].

(** C5: the export stage uses the name [os], which [summarizer.py] does
    not import.  With export requested, the stage raises [NameError]
    before it writes: the store's files and [export_path] are as before,
    and the stage's message reports the error. *)
Theorem export_stage_writes_nothing
    (strftime_now : nat -> string -> string) (getlogin : string)
    (st : AgentState) (w : World) (p : params) :
  carries_params st p ->
  export p = true ->
  let s' := (_export_summary strftime_now getlogin (st, w)).1 in
  files s'.2 = files w
  /\ export_path s'.1 = export_path st
  /\ messages s'.1
     = messages st
       ++ [AIMessage
             (Text "Error exporting summary: name 'os' is not defined")].
Proof.
  intros Hp He. unfold _export_summary, try_except.
  cbv [mbind M_bind]. rewrite (read_params_ok _ _ _ Hp). rewrite He.
  cbn. auto.
Qed.

Lemma export_stage_writes_nothing_witness :
  let s' := (_export_summary fixed_clock "user"
               (generated_state, one_export)).1 in
  files s'.2 = files one_export /\ export_path s'.1 = None.
Proof.
  destruct (export_stage_writes_nothing fixed_clock "user" generated_state
              one_export docs_params) as (H1 & H2 & _).
  - exists (HumanMessage (Dumps docs_params)). split; reflexivity.
  - reflexivity.
  - split; [exact H1 | exact H2].
Defined.

(** C4: the compare stage calls [unified_diff], which [summarizer.py]
    does not import.  When the stage has found an earlier export with
    the ["## Summary"] marker, it stores the comparison statistics and
    then raises [NameError]: [diff_result] is as before, and the stage's
    message reports the error. *)
Theorem compare_stage_stores_no_diff
    (chain : string -> string -> result string)
    (st : AgentState) (w : World) (p : params)
    (previous_file : string * string) (text new_summary : string) :
  carries_params st p ->
  sorted_reverse
    (glob w (export_dir p) (file_stem (metadata st) +:+ "*.md")) !! 1
  = Some previous_file ->
  files w !! previous_file = Some text ->
  PyStr.contains "## Summary" text = true ->
  summary st = Some new_summary ->
  let s' := (_compare_summaries chain (st, w)).1 in
  diff_result s'.1 = diff_result st
  /\ (exists stats,
        _calculate_comparison_stats chain (extract_summary text) new_summary
        = Ok stats
        /\ comparison_stats s'.1 = Some stats)
  /\ messages s'.1
     = messages st
       ++ [AIMessage
             (Text
                "Error comparing summaries: name 'unified_diff' is not defined")].
Proof.
  intros Hp Hfile Htext Hmark Hsum. unfold _compare_summaries, try_except.
  cbv [mbind M_bind]. rewrite (read_params_ok _ _ _ Hp).
  rewrite !use_bound by reflexivity. step_stage.
  assert (Hlen : (1 <? length (sorted_reverse
            (glob w (export_dir p) (file_stem (metadata st) +:+ "*.md")))) = true).
  { apply Nat.ltb_lt. now apply lookup_lt_Some in Hfile. }
  rewrite Hlen, Hfile, Htext, Hmark. unfold summary_text. rewrite Hsum.
  rewrite calculate_comparison_stats_ok. rewrite unified_diff_unbound.
  step_stage. rewrite !use_bound by reflexivity. step_stage.
  split; [reflexivity|]. split; [|reflexivity].
  eexists. split; reflexivity.
Qed.

Lemma compare_stage_stores_no_diff_witness :
  let s' := (_compare_summaries answering_chain
               (generated_state, two_exports)).1 in
  diff_result s'.1 = None
  /\ last (messages s'.1)
     = Some (AIMessage
               (Text
                  "Error comparing summaries: name 'unified_diff' is not defined")).
Proof.
  destruct (compare_stage_stores_no_diff answering_chain generated_state
              two_exports docs_params
              ("summaries", "DOCS_42_20231231_000000.md")
              (export_text "Hey") "Hello") as (H1 & _ & H3).
  - exists (HumanMessage (Dumps docs_params)). split; reflexivity.
  - vm_compute. reflexivity.
  - vm_compute. reflexivity.
  - vm_compute. reflexivity.
  - reflexivity.
  - split; [exact H1|]. rewrite H3. reflexivity.
Defined.

(** C6: the compare stage runs before the export stage, and it passes
    over the newest matching file.  With exactly one earlier export in
    the store, it loads nothing and compares nothing: the run context
    and the store are as before. *)
Theorem compare_stage_skips_single_export
    (chain : string -> string -> result string)
    (st : AgentState) (w : World) (p : params) (only : string * string) :
  carries_params st p ->
  glob w (export_dir p) (file_stem (metadata st) +:+ "*.md") = [only] ->
  (_compare_summaries chain (st, w)).1 = (st, w).
Proof.
  intros Hp Hglob. unfold _compare_summaries, try_except.
  cbv [mbind M_bind]. rewrite (read_params_ok _ _ _ Hp).
  rewrite !use_bound by reflexivity. step_stage.
  rewrite Hglob. reflexivity.
Qed.

Lemma compare_stage_skips_single_export_witness :
  (_compare_summaries answering_chain (generated_state, one_export)).1
  = (generated_state, one_export)
  /\ comparison_stats generated_state = None.
Proof.
  split; [|reflexivity].
  apply (compare_stage_skips_single_export answering_chain generated_state
           one_export docs_params
           ("summaries", "DOCS_42_20240101_000000.md")).
  - exists (HumanMessage (Dumps docs_params)). split; reflexivity.
  - vm_compute. reflexivity.
Defined.

(** *** The path through the graph *)












(** ** The stages and the message log *)

Lemma quiet_use name : quiet (use name).
Proof.
  intros s. unfold use.
  now destruct (PyStr.mem_string name module_globals
                || PyStr.mem_string name builtins).
Qed.

Lemma quiet_lift {A : Type} (r : result A) : quiet (lift r).
Proof. now intros s. Qed.

Lemma quiet_ret {A : Type} (a : A) : quiet (mret a : M A).
Proof. now intros s. Qed.

Lemma quiet_raise {A : Type} (e : exn) : quiet (raise e : M A).
Proof. now intros s. Qed.

Lemma quiet_get_state : quiet get_state.
Proof. now intros s. Qed.

Lemma quiet_get_world : quiet get_world.
Proof. now intros s. Qed.

Lemma quiet_update_world f : quiet (update_world f).
Proof. now intros s. Qed.

Lemma quiet_update f :
  (forall st, messages (f st) = messages st) -> quiet (update f).
Proof. intros Hf s. apply Hf. Qed.

Lemma quiet_bind {A B : Type} (m : M A) (k : A -> M B) :
  quiet m -> (forall a, quiet (k a)) -> quiet (m ≫= k).
Proof.
  intros Hm Hk s. specialize (Hm s). unfold mbind, M_bind.
  destruct (m s) as [s' [a|e]]; simpl in *.
  - now rewrite Hk.
  - assumption.
Qed.

Lemma quiet_read_params : quiet read_params.
Proof.
  unfold read_params. apply quiet_bind; [apply quiet_get_state|].
  intros st. destruct (last (messages st)); [|apply quiet_raise].
  apply quiet_bind; [apply quiet_use|]. intros _. apply quiet_lift.
Qed.

Lemma quiet_now strftime_now format : quiet (now strftime_now format).
Proof.
  unfold now. apply quiet_bind; [apply quiet_use|]. intros _.
  apply quiet_bind; [apply quiet_get_world|]. intros w.
  apply quiet_bind; [apply quiet_update_world|]. intros _. apply quiet_ret.
Qed.

Lemma appends_one_quiet {A : Type} (m : M A) : quiet m -> appends_one m.
Proof.
  intros Hm s. exists []. rewrite app_nil_r. split; [apply Hm|].
  destruct (m s).2; simpl; [lia | reflexivity].
Qed.

Lemma appends_one_say text : appends_one (say text).
Proof.
  intros s. exists [AIMessage (Text text)]. unfold say.
  rewrite use_bound by reflexivity. split; [reflexivity | simpl; lia].
Qed.

Lemma appends_one_bind {A B : Type} (m : M A) (k : A -> M B) :
  quiet m -> (forall a, appends_one (k a)) -> appends_one (m ≫= k).
Proof.
  intros Hm Hk s. specialize (Hm s). unfold mbind, M_bind.
  destruct (m s) as [s' [a|e]]; simpl in *.
  - destruct (Hk a s') as (l & Hl & Hr). exists l. now rewrite Hl, Hm.
  - exists []. now rewrite app_nil_r.
Qed.

Lemma stage_ok_try_except (body : M unit) (handler : exn -> M unit) :
  appends_one body ->
  (forall e, exists text, handler e = say text) ->
  stage_ok (try_except body handler).
Proof.
  intros Hb Hh s. unfold try_except. destruct (Hb s) as (l & Hl & Hr).
  destruct (body s) as [s' [[]|e]]; simpl in *.
  - split; [reflexivity|]. now exists l.
  - subst l. rewrite app_nil_r in Hl. destruct (Hh e) as (text & ->).
    unfold say. rewrite use_bound by reflexivity. split; [reflexivity|].
    exists [AIMessage (Text text)]. simpl. rewrite Hl. split; [reflexivity|lia].
Qed.

Create HintDb stages.

#[local] Hint Resolve quiet_use quiet_lift quiet_ret quiet_raise
  quiet_get_state quiet_get_world quiet_update_world quiet_read_params
  quiet_now appends_one_say : stages.

(** One step of a stage's body: a quiet computation and what follows
    it, a branch, or the last computation. *)
Ltac stage_body :=
  repeat first
    [ apply appends_one_say
    | apply appends_one_bind;
        [ first [ solve [auto with stages]
                | apply quiet_update; intros ?; reflexivity ]
        | intros ? ]
    | match goal with
      | |- appends_one (let _ := _ in _) => cbv zeta
      | |- appends_one (if ?b then _ else _) => destruct b
      | |- appends_one (match ?x with _ => _ end) => destruct x
      end
    | apply appends_one_quiet;
        first [ solve [auto with stages]
              | apply quiet_update; intros ?; reflexivity ] ].

Lemma load_stage_ok load_content : stage_ok (_load_content load_content).
Proof.
  apply stage_ok_try_except; [|intros e; eexists; reflexivity]. stage_body.
Qed.

Lemma prepare_stage_ok : stage_ok _prepare_documents.
Proof.
  apply stage_ok_try_except; [|intros e; eexists; reflexivity]. stage_body.
Qed.

Lemma generate_stage_ok personas summary_chain :
  stage_ok (_generate_summary personas summary_chain).
Proof.
  apply stage_ok_try_except; [|intros e; eexists; reflexivity]. stage_body.
Qed.

Lemma compare_stage_ok analysis_chain :
  stage_ok (_compare_summaries analysis_chain).
Proof.
  apply stage_ok_try_except; [|intros e; eexists; reflexivity]. stage_body.
Qed.

Lemma export_stage_ok strftime_now getlogin :
  stage_ok (_export_summary strftime_now getlogin).
Proof.
  apply stage_ok_try_except; [|intros e; eexists; reflexivity]. stage_body.
Qed.

(** X1: Every node of the workflow graph returns, whatever the run context
    and the store it is given, and it keeps the messages it found and
    appends at most one. *)
Theorem stages_only_append
    (load_content : string -> option string -> bool -> result (list Document))
    (personas : gmap string string)
    (summary_chain :
       string -> string -> option string -> list message -> string
       -> result string)
    (analysis_chain : string -> string -> result string)
    (strftime_now : nat -> string -> string) (getlogin : string) :
  Forall (fun node => stage_ok node.2)
    (nodes (_create_agent_graph load_content personas summary_chain
              analysis_chain strftime_now getlogin)).
Proof.
  cbn [_create_agent_graph set_entry_point add_edge add_node nodes
       empty_graph app].
  apply Forall_cons_2; [apply load_stage_ok|].
  apply Forall_cons_2; [apply prepare_stage_ok|].
  apply Forall_cons_2; [apply generate_stage_ok|].
  apply Forall_cons_2; [apply compare_stage_ok|].
  apply Forall_cons_2; [apply export_stage_ok|].
  apply Forall_nil_2.
Qed.

(** ** The stages, one by one *)

(** X3: When the parameters do not ask for an export, the export stage
    returns at once: the run context and the store are as before, no
    message is appended and the clock is not read. *)
Theorem export_disabled_is_noop
    (strftime_now : nat -> string -> string) (getlogin : string)
    (st : AgentState) (w : World) (p : params) :
  carries_params st p ->
  export p = false ->
  _export_summary strftime_now getlogin (st, w) = ((st, w), Ok tt).
Proof.
  intros Hp He. unfold _export_summary, try_except.
  cbv [mbind M_bind]. rewrite (read_params_ok _ _ _ Hp). now rewrite He.
Qed.

Lemma export_disabled_is_noop_witness :
  _export_summary fixed_clock "user"
    (initial_state no_export_params, one_export)
  = ((initial_state no_export_params, one_export), Ok tt).
Proof.
  apply (export_disabled_is_noop fixed_clock "user"
           (initial_state no_export_params) one_export no_export_params).
  - exists (HumanMessage (Dumps no_export_params)). split; reflexivity.
  - reflexivity.
Defined.

(** X4: When the loader returns, the load stage stores the documents; the
    metadata of the run become those of the first document, and stay as
    they were when the loader returns no document.  Nothing else
    changes, and no message is appended. *)
Theorem load_stage_stores_documents
    (load_content : string -> option string -> bool -> result (list Document))
    (st : AgentState) (w : World) (p : params) (docs : list Document) :
  carries_params st p ->
  load_content (space_key p) (page_id p) (include_children p) = Ok docs ->
  let out := _load_content load_content (st, w) in
  out.2 = Ok tt
  /\ out.1.2 = w
  /\ documents out.1.1 = docs
  /\ metadata out.1.1
     = match docs with
       | [] => metadata st
       | first :: _ => doc_metadata first
       end
  /\ messages out.1.1 = messages st
  /\ summary out.1.1 = summary st
  /\ export_path out.1.1 = export_path st
  /\ diff_result out.1.1 = diff_result st
  /\ comparison_stats out.1.1 = comparison_stats st.
Proof.
  intros Hp Hl. unfold _load_content, try_except.
  cbv [mbind M_bind]. rewrite (read_params_ok _ _ _ Hp).
  step_stage. rewrite Hl. destruct docs as [|first rest]; cbn; auto 10.
Qed.

Lemma load_stage_stores_documents_witness :
  let out := _load_content one_page_loader (initial_state docs_params, one_export) in
  documents out.1.1 = [guide_document] /\ metadata out.1.1 = docs_metadata.
Proof.
  destruct (load_stage_stores_documents one_page_loader
              (initial_state docs_params) one_export docs_params
              [guide_document]) as (_ & _ & Hd & Hm & _).
  - exists (HumanMessage (Dumps docs_params)). split; reflexivity.
  - reflexivity.
  - split; [exact Hd | exact Hm].
Defined.

(** X5: The generation stage, called with the parameters as the last
    message: a summary is stored only when the persona is known and the
    chain returns, and it is the chain's answer for the page contents
    joined by line feeds; an unknown persona and a failing chain leave
    the summary as it was and append the error.  The store is not
    touched. *)
Theorem generate_stage_outcome
    (personas : gmap string string)
    (summary_chain :
       string -> string -> option string -> list message -> string
       -> result string)
    (st : AgentState) (w : World) (p : params) :
  carries_params st p ->
  let out := (_generate_summary personas summary_chain (st, w)).1 in
  out.2 = w
  /\ match personas !! persona p with
     | None =>
         summary out.1 = summary st
         /\ messages out.1
            = messages st
              ++ [AIMessage
                    (Text ("Error generating summary: Unknown persona: "
                           +:+ persona p))]
     | Some prompt =>
         match summary_chain (persona p) prompt (context p) (messages st)
                 (PyStr.join PyStr.nl (page_content <$> documents st)) with
         | Ok text =>
             summary out.1 = Some text
             /\ messages out.1
                = messages st
                  ++ [AIMessage (Text "Summary generated successfully.")]
         | Raise e =>
             summary out.1 = summary st
             /\ messages out.1
                = messages st
                  ++ [AIMessage
                        (Text ("Error generating summary: " +:+ exn_str e))]
         end
     end.
Proof.
  intros Hp. unfold _generate_summary, try_except, get_persona_prompt.
  cbv [mbind M_bind]. rewrite (read_params_ok _ _ _ Hp).
  destruct (personas !! persona p) as [prompt|].
  - step_stage. rewrite !use_bound by reflexivity. step_stage.
    destruct (summary_chain _ _ _ _ _) as [text|e]; step_stage;
      rewrite ?use_bound by reflexivity; cbn; auto.
  - step_stage. rewrite !use_bound by reflexivity. cbn. auto.
Qed.

Lemma generate_stage_outcome_witness :
  let out := (_generate_summary one_persona answering_summary_chain
                (initial_state docs_params, one_export)).1 in
  summary out.1 = Some "Hello".
Proof.
  destruct (generate_stage_outcome one_persona answering_summary_chain
              (initial_state docs_params) one_export docs_params) as [_ H].
  - exists (HumanMessage (Dumps docs_params)). split; reflexivity.
  - apply H.
Defined.

(** ** A whole run *)



(** ** More on the comparison *)

(** Every group of opcodes has an opcode. *)
Lemma group_loop_nonempty n codes group :
  Forall (fun g => g <> []) (Difflib.group_loop n codes group).
Proof.
  revert group. induction codes as [|[[[[t i1] i2] j1] j2] r IH];
    intros group; simpl.
  - destruct group as [|[[[[[] ?] ?] ?] ?] [|? ?]]; repeat constructor;
      discriminate.
  - destruct (Difflib.is_equal t && (n + n <? i2 - i1)).
    + constructor; [|apply IH]. now destruct group.
    + apply IH.
Qed.

Lemma hunk_length a b group :
  group <> [] -> 1 <= length (Difflib.hunk a b group).
Proof.
  intros Hg. unfold Difflib.hunk.
  destruct group as [|[[[[t f1] f2] f3] f4] r]; [contradiction|].
  match goal with
  | |- context [last ?l] =>
      destruct (last l) as [[[[[lt l1] l2] l3] l4]|] eqn:Hl
  end.
  - cbn [length]. lia.
  - now apply last_None in Hl.
Qed.

(** A diff is empty, or it has the two file header lines and a hunk
    header at least. *)
Lemma unified_diff_length a b :
  Difflib.unified_diff a b = [] \/ 3 <= length (Difflib.unified_diff a b).
Proof.
  unfold Difflib.unified_diff.
  pose proof (group_loop_nonempty 3
    (Difflib.trim_last 3
       (Difflib.trim_first 3
          match Difflib.get_opcodes a b with
          | [] => [(Difflib.equal, 0, 1, 0, 1)]
          | _ :: _ => Difflib.get_opcodes a b
          end)) []) as Hne.
  unfold Difflib.get_grouped_opcodes.
  destruct (Difflib.group_loop _ _ _) as [|g gs]; [now left|right].
  apply Forall_cons in Hne as [Hg _].
  cbn [map concat length]. rewrite length_app.
  pose proof (hunk_length a b g Hg). lia.
Qed.

Lemma change_of_diff_line_count chain olds news t c :
  change_of chain olds news t = Some c -> 3 <= Change.diff_line_count c.
Proof.
  unfold change_of.
  destruct (next_titled t olds) as [o|]; [|discriminate].
  destruct (next_titled t news) as [n|]; [|discriminate].
  destruct (unified_diff_length (body_of o) (body_of n)) as [He|Hl].
  - now rewrite He.
  - destruct (Difflib.unified_diff _ _); [discriminate|].
    now intros [= <-].
Qed.

Lemma changed_titles_sublist chain olds news (titles : list string) :
  Change.section <$> omap (change_of chain olds news) titles
  `sublist_of` titles.
Proof.
  induction titles as [|t titles IH]; simpl; [constructor|].
  destruct (change_of chain olds news t) as [c|] eqn:Hc; simpl.
  - rewrite (change_of_section _ _ _ _ _ Hc). now constructor.
  - now constructor.
Qed.

(** X6: The report lists a title at most once, it lists no more changes
    than [changed_sections] counts, and the [diff_line_count] of a
    listed change is 3 at least: the two file header lines and the hunk
    header of the diff are counted with its lines. *)
Theorem section_changes_are_distinct
    (chain : string -> string -> result string) (old new : string) :
  exists stats,
    _calculate_comparison_stats chain old new = Ok stats
    /\ NoDup (Change.section <$> Stats.section_changes stats)
    /\ length (Stats.section_changes stats) <= Stats.changed_sections stats
    /\ Forall (fun c => 3 <= Change.diff_line_count c)
         (Stats.section_changes stats).
Proof.
  eexists. split; [apply calculate_comparison_stats_ok|].
  cbn [Stats.section_changes Stats.changed_sections].
  set (titles := elements (old_section_titles old ∩ new_section_titles new)).
  pose proof (changed_titles_sublist chain (split_sections old)
                (split_sections new) titles) as Hsub.
  split; [|split].
  - apply (sublist_NoDup _ titles); [apply NoDup_elements | exact Hsub].
  - apply sublist_length in Hsub. rewrite length_fmap in Hsub.
    exact Hsub.
  - apply Forall_forall. intros c Hc.
    apply list_elem_of_omap in Hc as (t & _ & Hc).
    exact (change_of_diff_line_count _ _ _ _ _ Hc).
Qed.

(** X7: Comparing in the other direction exchanges the roles: the added
    sections of one report are the removed sections of the other, the
    line counts change places, [line_difference] changes its sign, and
    [changed_sections] is the same. *)
Theorem comparison_of_swapped_texts
    (chain chain' : string -> string -> result string) (old new : string) :
  exists stats swapped,
    _calculate_comparison_stats chain old new = Ok stats
    /\ _calculate_comparison_stats chain' new old = Ok swapped
    /\ Stats.added_sections swapped = Stats.removed_sections stats
    /\ Stats.removed_sections swapped = Stats.added_sections stats
    /\ Stats.changed_sections swapped = Stats.changed_sections stats
    /\ Stats.old_line_count swapped = Stats.new_line_count stats
    /\ Stats.new_line_count swapped = Stats.old_line_count stats
    /\ Stats.line_difference swapped = (- Stats.line_difference stats)%Z.
Proof.
  do 2 eexists.
  split; [apply calculate_comparison_stats_ok|].
  split; [apply calculate_comparison_stats_ok|].
  cbn [Stats.added_sections Stats.removed_sections Stats.changed_sections
       Stats.old_line_count Stats.new_line_count Stats.line_difference].
  unfold old_section_titles, new_section_titles.
  repeat split; try lia.
  f_equal. apply (comm_L (∩)).
Qed.

(** ** The persona manager *)

(** X8: A persona that was added is found with the prompt given for it,
    whether or not the name was known before, and the other names are
    answered as before. *)
Theorem added_persona_is_found
    (ps : Persona.personas) (name prompt : string) :
  get_persona_prompt (Persona.add_persona name prompt ps) name = Ok prompt
  /\ forall other,
       other <> name ->
       get_persona_prompt (Persona.add_persona name prompt ps) other
       = get_persona_prompt ps other.
Proof.
  unfold get_persona_prompt, Persona.add_persona, Persona.personas in *.
  split.
  - now rewrite lookup_insert_eq.
  - intros other Hne. now rewrite lookup_insert_ne.
Qed.

Lemma added_persona_is_found_witness :
  get_persona_prompt (Persona.add_persona "legal" "You are a lawyer." Persona.init)
    "legal" = Ok "You are a lawyer."
  /\ get_persona_prompt
       (Persona.add_persona "legal" "You are a lawyer." Persona.init)
       "technical"
     = get_persona_prompt Persona.init "technical".
Proof.
  destruct (added_persona_is_found Persona.init "legal" "You are a lawyer.")
    as [H1 H2].
  split; [exact H1|]. apply H2. discriminate.
Defined.

(** X9: Removing a persona that is known makes it unknown and leaves the
    others; removing one that is not known raises the error that
    looking it up raises, and leaves the personas as they are. *)
Theorem remove_persona_outcome (ps : Persona.personas) (name : string) :
  (forall prompt,
     get_persona_prompt ps name = Ok prompt ->
     exists ps',
       Persona.remove_persona name ps = (ps', Ok tt)
       /\ get_persona_prompt ps' name
          = Raise (Exn "ValueError" ("Unknown persona: " +:+ name))
       /\ forall other,
            other <> name ->
            get_persona_prompt ps' other = get_persona_prompt ps other)
  /\ (forall e,
        get_persona_prompt ps name = Raise e ->
        Persona.remove_persona name ps = (ps, Raise e)).
Proof.
  unfold get_persona_prompt, Persona.remove_persona, Persona.personas in *.
  destruct (ps !! name) as [p|] eqn:Hp; split.
  - intros prompt _. exists (delete name ps). split; [reflexivity|]. split.
    + now rewrite lookup_delete_eq.
    + intros other Hne. now rewrite lookup_delete_ne.
  - discriminate.
  - discriminate.
  - now intros e [= <-].
Qed.

Lemma remove_persona_outcome_witness :
  (exists ps',
     Persona.remove_persona "user" Persona.init = (ps', Ok tt)
     /\ get_persona_prompt ps' "user"
        = Raise (Exn "ValueError" "Unknown persona: user"))
  /\ Persona.remove_persona "legal" Persona.init
     = (Persona.init, Raise (Exn "ValueError" "Unknown persona: legal")).
Proof.
  destruct (remove_persona_outcome Persona.init "user") as [H1 _].
  destruct (remove_persona_outcome Persona.init "legal") as [_ H2].
  split.
  - destruct (H1 Persona.user_prompt) as (ps' & Hr & Hg & _); [reflexivity|].
    exists ps'. split; [exact Hr | exact Hg].
  - apply H2. reflexivity.
Defined.

(** X10: Adding a persona and removing it again gives back the personas
    there were, when the name was a new one; when it was known, its
    earlier prompt is lost. *)
Theorem add_then_remove_persona
    (ps : Persona.personas) (name prompt : string) :
  Persona.remove_persona name (Persona.add_persona name prompt ps)
  = (delete name ps, Ok tt)
  /\ (ps !! name = None -> delete name ps = ps)
  /\ (forall earlier,
        ps !! name = Some earlier ->
        get_persona_prompt (delete name ps) name
        = Raise (Exn "ValueError" ("Unknown persona: " +:+ name))).
Proof.
  unfold Persona.remove_persona, Persona.add_persona, get_persona_prompt,
    Persona.personas in *.
  rewrite lookup_insert_eq. split; [|split].
  - now rewrite delete_insert_eq.
  - apply delete_id.
  - intros earlier _. now rewrite lookup_delete_eq.
Qed.

Lemma add_then_remove_persona_witness :
  Persona.remove_persona "legal"
    (Persona.add_persona "legal" "You are a lawyer." Persona.init)
  = (Persona.init, Ok tt).
Proof.
  destruct (add_then_remove_persona Persona.init "legal" "You are a lawyer.")
    as (H1 & H2 & _).
  rewrite H1. rewrite H2; reflexivity.
Defined.

(** ** The document loader *)

Section LoaderProperties.

Variable page : Type.
Variable get_page_by_id : string -> result page.
Variable get_child_pages : string -> result (list page).
Variable get_all_pages_from_space : string -> result (list page).
Variable _create_document : page -> result Document.

Lemma create_documents_all (pages : list page) (docs acc : list Document) :
  Forall2 (fun p d => _create_document p = Ok d) pages docs ->
  Loader.create_documents page _create_document pages acc = Ok (acc ++ docs).
Proof.
  intros Hall. revert acc.
  induction Hall as [|p d pages docs Hd _ IH]; intros acc; simpl.
  - now rewrite app_nil_r.
  - rewrite Hd. simpl. rewrite IH. now rewrite <- app_assoc.
Qed.

Lemma create_documents_some (pages : list page) (acc out : list Document) :
  Loader.create_documents page _create_document pages acc = Ok out ->
  exists docs,
    Forall2 (fun p d => _create_document p = Ok d) pages docs
    /\ out = acc ++ docs.
Proof.
  revert acc. induction pages as [|p pages IH]; intros acc; simpl.
  - intros [= <-]. exists []. split; [constructor | now rewrite app_nil_r].
  - destruct (_create_document p) as [d|e] eqn:Hd; [|discriminate]. simpl.
    intros Hrest. destruct (IH _ Hrest) as (docs & Hall & ->).
    exists (d :: docs). split; [now constructor | now rewrite <- app_assoc].
Qed.

End LoaderProperties.

(** X11: With a page identifier and child pages asked for, the loader
    returns the document of the page followed by the documents of its
    children, in the order the client lists them: one more document
    than there are children.  Conversely, whenever it returns, every
    page it fetched was made into a document. *)
Theorem page_and_children_are_loaded
    (page : Type)
    (get_page_by_id : string -> result page)
    (get_child_pages get_all_pages_from_space : string -> result (list page))
    (_create_document : page -> result Document)
    (space_key : string) (c : ascii) (r : string) :
  let id := String c r in
  let load :=
    Loader.load_content page get_page_by_id get_child_pages
      get_all_pages_from_space _create_document space_key (Some id) true in
  (forall p children d docs,
     get_page_by_id id = Ok p ->
     get_child_pages id = Ok children ->
     _create_document p = Ok d ->
     Forall2 (fun p d => _create_document p = Ok d) children docs ->
     load = Ok (d :: docs) /\ length (d :: docs) = 1 + length children)
  /\ (forall out,
        load = Ok out ->
        exists p children d docs,
          get_page_by_id id = Ok p
          /\ get_child_pages id = Ok children
          /\ _create_document p = Ok d
          /\ Forall2 (fun p d => _create_document p = Ok d) children docs
          /\ out = d :: docs).
Proof.
  intros id load. unfold load, Loader.load_content, Loader.load_pages, id.
  split.
  - intros p children d docs Hp Hc Hd Hall. rewrite Hp. simpl. rewrite Hd.
    simpl. rewrite Hc. simpl.
    rewrite (create_documents_all _ _ _ _ _ Hall). split; [reflexivity|].
    simpl. now rewrite (Forall2_length _ _ _ Hall).
  - intros out.
    destruct (get_page_by_id (String c r)) as [p|e]; [|discriminate]. simpl.
    destruct (_create_document p) as [d|e] eqn:Hd; [|discriminate]. simpl.
    destruct (get_child_pages (String c r)) as [children|e]; [|discriminate].
    simpl.
    destruct (Loader.create_documents _ _ children [d]) as [docs'|e] eqn:Hcd;
      [|discriminate].
    intros [= <-].
    destruct (create_documents_some _ _ _ _ _ Hcd) as (docs & Hall & ->).
    exists p, children, d, docs. auto.
Qed.

Lemma page_and_children_are_loaded_witness :
  Loader.load_content string client_page client_children client_space
    client_document "DOCS" (Some "42") true
  = Ok [page_document "42"; page_document "43"; page_document "44"].
Proof.
  destruct (page_and_children_are_loaded string client_page client_children
              client_space client_document "DOCS" "4" "2") as [H _].
  destruct (H "42" ["43"; "44"] (page_document "42")
              [page_document "43"; page_document "44"]) as [Hl _].
  - reflexivity.
  - reflexivity.
  - reflexivity.
  - repeat constructor.
  - exact Hl.
Defined.

(** X12: Without a page identifier, and also with the empty string for one,
    the loader takes every page of the space and does not look at
    [include_children]: neither the page call nor the child call of the
    client has a part in the result. *)
Theorem empty_page_id_loads_space
    (page : Type)
    (get_page_by_id get_page_by_id' : string -> result page)
    (get_child_pages get_child_pages' get_all_pages_from_space
       : string -> result (list page))
    (_create_document : page -> result Document)
    (space_key : string) (page_id : option string)
    (include_children include_children' : bool) :
  page_id = None \/ page_id = Some "" ->
  Loader.load_content page get_page_by_id get_child_pages
    get_all_pages_from_space _create_document space_key page_id
    include_children
  = Loader.load_content page get_page_by_id' get_child_pages'
      get_all_pages_from_space _create_document space_key None
      include_children'
  /\ forall pages docs,
       get_all_pages_from_space space_key = Ok pages ->
       Forall2 (fun p d => _create_document p = Ok d) pages docs ->
       Loader.load_content page get_page_by_id get_child_pages
         get_all_pages_from_space _create_document space_key page_id
         include_children
       = Ok docs.
Proof.
  intros [-> | ->]; (split; [reflexivity|]); intros pages docs Hp Hall;
    unfold Loader.load_content, Loader.load_pages; rewrite Hp; simpl;
    now rewrite (create_documents_all _ _ _ _ _ Hall).
Qed.

Lemma empty_page_id_loads_space_witness :
  Loader.load_content string client_page client_children client_space
    client_document "DOCS" (Some "") true
  = Ok [page_document "42"; page_document "43"; page_document "44"].
Proof.
  destruct (empty_page_id_loads_space string client_page client_page
              client_children client_children client_space client_document
              "DOCS" (Some "") true true) as [_ H].
  - now right.
  - apply (H ["42"; "43"; "44"]); [reflexivity|]. repeat constructor.
Defined.

(** X13: When the client fails on the page, the loader raises an
    [Exception] that carries the text of the failure after its own
    prefix, and the load stage of the workflow puts its prefix before
    that: the message of the run has both, and the documents and the
    metadata of the run are as before. *)
Theorem load_stage_reports_client_failure
    (page : Type)
    (get_page_by_id : string -> result page)
    (get_child_pages get_all_pages_from_space : string -> result (list page))
    (_create_document : page -> result Document)
    (st : AgentState) (w : World) (p : params) (c : ascii) (r : string)
    (e : exn) :
  carries_params st p ->
  page_id p = Some (String c r) ->
  get_page_by_id (String c r) = Raise e ->
  let load_content :=
    Loader.load_content page get_page_by_id get_child_pages
      get_all_pages_from_space _create_document in
  load_content (space_key p) (page_id p) (include_children p)
  = Raise (Exn "Exception"
             ("Error loading content from Confluence: " +:+ exn_str e))
  /\ let out := (_load_content load_content (st, w)).1 in
     messages out.1
     = messages st
       ++ [AIMessage
             (Text ("Error loading content: "
                    +:+ "Error loading content from Confluence: "
                    +:+ exn_str e))]
     /\ documents out.1 = documents st
     /\ metadata out.1 = metadata st
     /\ out.2 = w.
Proof.
  intros Hp Hid He load_content.
  assert (Hload :
    load_content (space_key p) (page_id p) (include_children p)
    = Raise (Exn "Exception"
               ("Error loading content from Confluence: " +:+ exn_str e))).
  { unfold load_content, Loader.load_content, Loader.load_pages.
    rewrite Hid, He. reflexivity. }
  split; [exact Hload|].
  unfold _load_content, try_except. cbv [mbind M_bind].
  rewrite (read_params_ok _ _ _ Hp). step_stage. rewrite Hload.
  rewrite !use_bound by reflexivity. cbn. auto.
Qed.

Lemma load_stage_reports_client_failure_witness :
  let load_content :=
    Loader.load_content string down_page client_children client_space
      client_document in
  messages (_load_content load_content (initial_state docs_params, one_export)).1.1
  = [HumanMessage (Dumps docs_params);
     AIMessage
       (Text
          "Error loading content: Error loading content from Confluence: down")].
Proof.
  destruct (load_stage_reports_client_failure string down_page client_children
              client_space client_document (initial_state docs_params)
              one_export docs_params "4" "2" (Exn "ConnectionError" "down"))
    as (_ & Hm & _).
  - exists (HumanMessage (Dumps docs_params)). split; reflexivity.
  - reflexivity.
  - reflexivity.
  - exact Hm.
Defined.

(** ** The configuration *)

Lemma missing_vars_nil (env : Config.environ) :
  Config.missing_vars env = []
  <-> Forall (fun var => exists v, env !! var = Some v /\ v <> "")
        Config.required_vars.
Proof.
  unfold Config.missing_vars. split.
  - intros Hnil. apply Forall_forall. intros var Hvar.
    apply list_elem_of_In in Hvar.
    destruct (Config.truthy (env !! var)) eqn:Ht.
    + destruct (env !! var) as [[|c r]|]; try discriminate.
      eexists. split; [reflexivity | discriminate].
    + assert (Hin : In var
               (List.filter (fun var => negb (Config.truthy (env !! var)))
                  Config.required_vars)).
      { apply filter_In. split; [exact Hvar | now rewrite Ht]. }
      rewrite Hnil in Hin. contradiction.
  - intros Hall.
    destruct (List.filter _ Config.required_vars) as [|var rest] eqn:Hf;
      [reflexivity|].
    assert (Hin : In var (var :: rest)) by now left.
    rewrite <- Hf in Hin. apply filter_In in Hin as [Hvar Ht].
    apply list_elem_of_In in Hvar.
    rewrite Forall_forall in Hall.
    destruct (Hall var Hvar) as (v & Hv & Hne).
    rewrite Hv in Ht. destruct v; [contradiction | discriminate].
Qed.

(** X14: [from_env] returns a configuration exactly when each of the six
    required variables is set to a string that is not empty; a
    variable set to the empty string counts as missing.  The
    configuration then holds the values of the six variables, and for
    the API version and the export directory the value of the variable
    or, when it is not set, the default. *)
Theorem from_env_needs_every_variable (env : Config.environ) :
  ((exists cfg, Config.from_env env = Ok cfg)
   <-> Forall (fun var => exists v, env !! var = Some v /\ v <> "")
         Config.required_vars)
  /\ forall cfg,
       Config.from_env env = Ok cfg ->
       Config.confluence_url cfg = env !! "CONFLUENCE_URL"
       /\ Config.confluence_username cfg = env !! "CONFLUENCE_USERNAME"
       /\ Config.confluence_api_token cfg = env !! "CONFLUENCE_API_TOKEN"
       /\ Config.azure_openai_api_key cfg = env !! "AZURE_OPENAI_API_KEY"
       /\ Config.azure_openai_endpoint cfg = env !! "AZURE_OPENAI_ENDPOINT"
       /\ Config.azure_openai_deployment_name cfg
          = env !! "AZURE_OPENAI_DEPLOYMENT_NAME"
       /\ Config.azure_openai_api_version cfg
          = default "2024-02-15-preview" (env !! "AZURE_OPENAI_API_VERSION")
       /\ Config.export_dir cfg = default "summaries" (env !! "EXPORT_DIR").
Proof.
  split.
  - rewrite <- missing_vars_nil. unfold Config.from_env.
    destruct (Config.missing_vars env) as [|var rest]; split.
    + reflexivity.
    + intros _. eexists. reflexivity.
    + intros [cfg Hcfg]. discriminate Hcfg.
    + discriminate.
  - intros cfg. unfold Config.from_env.
    destruct (Config.missing_vars env); [|discriminate].
    intros [= <-]. cbn. auto 10.
Qed.

Lemma from_env_needs_every_variable_witness :
  exists cfg,
    Config.from_env full_environ = Ok cfg
    /\ Config.confluence_url cfg = Some "https://example.atlassian.net"
    /\ Config.export_dir cfg = "summaries".
Proof.
  destruct (from_env_needs_every_variable full_environ) as [[_ H1] H2].
  destruct H1 as [cfg Hcfg].
  - repeat (apply Forall_cons_2;
            [eexists; split; [reflexivity | discriminate]|]).
    apply Forall_nil_2.
  - exists cfg. split; [exact Hcfg|].
    destruct (H2 cfg Hcfg) as (Hu & _ & _ & _ & _ & _ & _ & Hd).
    split; [exact Hu | exact Hd].
Defined.

(** X15: When a required variable is not set, or is set to the empty
    string, [from_env] raises [ValueError], and the message names the
    missing variables in the order of the list of required ones, with
    that variable among them. *)
Theorem from_env_names_missing_variables
    (env : Config.environ) (var : string) :
  var ∈ Config.required_vars ->
  env !! var = None \/ env !! var = Some "" ->
  var ∈ Config.missing_vars env
  /\ Config.missing_vars env `sublist_of` Config.required_vars
  /\ Config.from_env env
     = Raise (Exn "ValueError"
                ("Missing required environment variables: "
                 +:+ PyStr.join ", " (Config.missing_vars env) +:+ PyStr.nl
                 +:+ "Please create a 'secrets' file with these variables or set them in your environment.")).
Proof.
  intros Hvar Hunset.
  assert (Hin : var ∈ Config.missing_vars env).
  { apply list_elem_of_In. unfold Config.missing_vars. apply filter_In.
    split; [now apply list_elem_of_In|].
    now destruct Hunset as [-> | ->]. }
  split; [exact Hin|]. split.
  - unfold Config.missing_vars.
    generalize Config.required_vars. intros l.
    induction l as [|x l IH]; simpl; [constructor|].
    destruct (negb _); now constructor.
  - unfold Config.from_env. destruct (Config.missing_vars env).
    + now apply elem_of_nil in Hin.
    + reflexivity.
Qed.

Lemma from_env_names_missing_variables_witness :
  Config.from_env (<["CONFLUENCE_API_TOKEN" := ""]> (delete "AZURE_OPENAI_API_KEY" full_environ))
  = Raise (Exn "ValueError"
             ("Missing required environment variables: "
              +:+ "CONFLUENCE_API_TOKEN, AZURE_OPENAI_API_KEY" +:+ PyStr.nl
              +:+ "Please create a 'secrets' file with these variables or set them in your environment.")).
Proof.
  destruct (from_env_names_missing_variables
              (<["CONFLUENCE_API_TOKEN" := ""]>
                 (delete "AZURE_OPENAI_API_KEY" full_environ))
              "CONFLUENCE_API_TOKEN") as (_ & _ & H).
  - apply (bool_decide_eq_true_1 _). vm_compute. reflexivity.
  - right. reflexivity.
  - rewrite H. vm_compute. reflexivity.
Defined.



(** ** The secrets file *)

Lemma split_once_without (sep s : string) :
  PyStr.contains sep s = false -> Config.split_once sep s = [s].
Proof.
  induction s as [|c r IH]; intros Hc; [reflexivity|].
  cbn [PyStr.contains] in Hc. apply orb_false_iff in Hc as [Hp Hr].
  cbn [Config.split_once]. rewrite Hp. now rewrite (IH Hr).
Qed.

Lemma substring_all (s : string) : String.substring 0 (String.length s) s = s.
Proof. induction s as [|c r IH]; simpl; [reflexivity | now rewrite IH]. Qed.

Lemma prefix_equals (c : ascii) (r : string) :
  String.prefix "=" (String c r) = Ascii.eqb c "=".
Proof.
  cbn [String.prefix]. destruct (ascii_dec "=" c) as [<-|Hne].
  - now destruct r.
  - symmetry. apply Ascii.eqb_neq. congruence.
Qed.

(** The text is split at its first ["="]. *)
Lemma split_once_equals (key value : string) :
  PyStr.contains "=" key = false ->
  Config.split_once "=" (key +:+ "=" +:+ value) = [key; value].
Proof.
  induction key as [|c r IH]; intros Hc.
  - change ("" +:+ "=" +:+ value) with (String "=" value).
    cbn. rewrite ?Nat.sub_0_r. rewrite substring_all. now destruct value.
  - cbn [PyStr.contains] in Hc. apply orb_false_iff in Hc as [Hp Hr].
    rewrite prefix_equals in Hp.
    change (String c r +:+ "=" +:+ value)
      with (String c (r +:+ "=" +:+ value)).
    cbn [Config.split_once]. rewrite prefix_equals, Hp.
    now rewrite (IH Hr).
Qed.

Lemma load_lines_app (good rest : list string) (env env1 : Config.environ) :
  Config.load_lines good env = (env1, Ok tt) ->
  Config.load_lines (good ++ rest) env = Config.load_lines rest env1.
Proof.
  revert env. induction good as [|line good IH]; intros env; simpl.
  - now intros [= <-].
  - destruct (negb (String.eqb (PyStr.strip line) "")
              && negb (String.prefix "#" (PyStr.strip line))); [|apply IH].
    destruct (Config.split_once "=" (PyStr.strip line))
      as [|key [|value [|? ?]]]; try discriminate.
    destruct (Config.setitem _ _ env) as [env'|e]; [apply IH | discriminate].
Qed.

(** X17: A line that is blank or that begins with ["#"], spaces around it
    aside, has no effect wherever it stands in the file. *)
Theorem secrets_comments_are_skipped
    (before after : list string) (comment : string) (env : Config.environ) :
  PyStr.strip comment = "" \/ String.prefix "#" (PyStr.strip comment) = true ->
  Config.load_lines (before ++ comment :: after) env
  = Config.load_lines (before ++ after) env.
Proof.
  intros Hc. revert env.
  induction before as [|line before IH]; intros env.
  - cbn [app Config.load_lines].
    destruct Hc as [-> | ->]; [reflexivity|]. now rewrite andb_false_r.
  - cbn [app Config.load_lines].
    destruct (negb (String.eqb (PyStr.strip line) "")
              && negb (String.prefix "#" (PyStr.strip line))); [|apply IH].
    destruct (Config.split_once "=" (PyStr.strip line))
      as [|key [|value [|? ?]]]; try reflexivity.
    destruct (Config.setitem _ _ env) as [env'|e]; [apply IH | reflexivity].
Qed.

Lemma secrets_comments_are_skipped_witness :
  Config.load_lines ["A=1"; "  # B=2"; "C=3"] ∅
  = Config.load_lines ["A=1"; "C=3"] ∅.
Proof.
  apply (secrets_comments_are_skipped ["A=1"] ["C=3"] "  # B=2" ∅).
  right. reflexivity.
Defined.

(** X18: A line is split at its first ["="]: what stands before it is the
    name and all that follows, further ["="] included, is the value,
    each without the spaces around it. *)
Theorem secrets_line_assigns
    (line key value : string) (rest : list string) (env : Config.environ) :
  PyStr.strip line = key +:+ "=" +:+ value ->
  PyStr.contains "=" key = false ->
  String.prefix "#" key = false ->
  PyStr.strip key <> "" ->
  Config.has_nul (PyStr.strip key) = false ->
  Config.has_nul (PyStr.strip value) = false ->
  Config.load_lines (line :: rest) env
  = Config.load_lines rest (<[PyStr.strip key := PyStr.strip value]> env).
Proof.
  intros Hline Hkey Hhash Hname Hnk Hnv. cbn [Config.load_lines].
  rewrite Hline, (split_once_equals _ _ Hkey).
  assert (Hcond : negb (String.eqb (key +:+ "=" +:+ value) "")
                  && negb (String.prefix "#" (key +:+ "=" +:+ value)) = true).
  { destruct key as [|c r]; [reflexivity|].
    change (String c r +:+ "=" +:+ value)
      with (String c (r +:+ "=" +:+ value)).
    cbn [String.eqb negb andb String.prefix] in Hhash |- *.
    destruct (ascii_dec "#" c); [destruct r; discriminate | reflexivity]. }
  rewrite Hcond. unfold Config.setitem. rewrite Hnk, Hnv. cbn [orb].
  destruct (String.eqb_spec (PyStr.strip key) ""); [contradiction|reflexivity].
Qed.

Lemma secrets_line_assigns_witness :
  (Config.load_lines [" TOKEN = a=b= "] ∅).1 = <["TOKEN" := "a=b="]> ∅.
Proof.
  rewrite (secrets_line_assigns " TOKEN = a=b= " "TOKEN " " a=b=" [] ∅);
    try reflexivity.
  discriminate.
Defined.

(** X19: A line without ["="] that is neither blank nor a comment raises
    [ValueError]: the lines before it have been assigned, and the lines
    after it are not read. *)
Theorem secrets_stop_at_bad_line
    (good rest : list string) (bad : string) (env env1 : Config.environ) :
  Config.load_lines good env = (env1, Ok tt) ->
  PyStr.strip bad <> "" ->
  String.prefix "#" (PyStr.strip bad) = false ->
  PyStr.contains "=" (PyStr.strip bad) = false ->
  Config.load_lines (good ++ bad :: rest) env
  = (env1,
     Raise (Exn "ValueError"
              "not enough values to unpack (expected 2, got 1)")).
Proof.
  intros Hgood Hne Hhash Hsep. rewrite (load_lines_app _ _ _ _ Hgood).
  cbn [Config.load_lines]. rewrite Hhash, (split_once_without _ _ Hsep).
  destruct (String.eqb_spec (PyStr.strip bad) ""); [contradiction|reflexivity].
Qed.

Lemma secrets_stop_at_bad_line_witness :
  Config.load_lines ["A=1"; "export B"; "C=3"] ∅
  = (<["A" := "1"]> ∅,
     Raise (Exn "ValueError"
              "not enough values to unpack (expected 2, got 1)")).
Proof.
  apply (secrets_stop_at_bad_line ["A=1"] ["C=3"] "export B" ∅).
  - reflexivity.
  - discriminate.
  - reflexivity.
  - reflexivity.
Defined.

(** ** A text compared with itself *)

Lemma index_from_lookup (b : list string) (i : nat)
    (m : gmap string (list nat)) (x : string) :
  default [] (Difflib.index_from i b m !! x)
  = default [] (m !! x) ++ positions x i b.
Proof.
  revert i m. induction b as [|y r IH]; intros i m; simpl.
  - now rewrite app_nil_r.
  - rewrite IH. destruct (String.eqb_spec y x) as [->|Hne].
    + rewrite lookup_insert_eq. simpl. now rewrite <- app_assoc.
    + now rewrite lookup_insert_ne.
Qed.

Lemma index_from_lookup_Some (b : list string) (x : string) (js : list nat) :
  Difflib.index_from 0 b ∅ !! x = Some js -> js = positions x 0 b.
Proof.
  intros Hjs. pose proof (index_from_lookup b 0 ∅ x) as H.
  rewrite Hjs, lookup_empty in H. exact H.
Qed.

Lemma chain_b_lookup (b : list string) (x : string) (js : list nat) :
  Difflib.chain_b b !! x = Some js -> js = positions x 0 b.
Proof.
  unfold Difflib.chain_b. destruct (200 <=? length b).
  - intros H. apply map_lookup_filter_Some in H as [H _].
    now apply index_from_lookup_Some.
  - apply index_from_lookup_Some.
Qed.

(** The indices looked at for line [i]: none, or all the indices of
    that line. *)
Lemma indices_of_positions (l : list string) (i : nat) :
  Difflib.indices_of l l i = []
  \/ exists x, l !! i = Some x /\ Difflib.indices_of l l i = positions x 0 l.
Proof.
  unfold Difflib.indices_of. destruct (l !! i) as [x|]; [|now left].
  destruct (Difflib.chain_b l !! x) as [js|] eqn:Hjs; [|now left].
  right. exists x. split; [reflexivity|]. simpl.
  now apply chain_b_lookup.
Qed.

Lemma positions_bounds (x : string) (o : nat) (b : list string) :
  Forall (fun j => o <= j < o + length b /\ b !! (j - o) = Some x)
    (positions x o b).
Proof.
  revert o. induction b as [|y r IH]; intros o; simpl; [constructor|].
  assert (Hr : Forall (fun j => o <= j < o + S (length r)
                                /\ (y :: r) !! (j - o) = Some x)
                 (positions x (S o) r)).
  { eapply Forall_impl; [apply IH|]. intros j [Hj Hx]. split; [lia|].
    replace (j - o) with (S (j - S o)) by lia. exact Hx. }
  destruct (String.eqb_spec y x) as [->|Hne]; [|exact Hr].
  constructor; [|exact Hr]. split; [lia|]. now rewrite Nat.sub_diag.
Qed.

Lemma positions_app (x : string) (o : nat) (b1 b2 : list string) :
  positions x o (b1 ++ b2)
  = positions x o b1 ++ positions x (o + length b1) b2.
Proof.
  revert o. induction b1 as [|y r IH]; intros o; simpl.
  - now rewrite Nat.add_0_r.
  - rewrite IH. replace (S o + length r) with (o + S (length r)) by lia.
    now destruct (String.eqb y x).
Qed.

(** The indices of line [i] are those below [i], then [i], then those
    above. *)
Lemma positions_split (l : list string) (i : nat) (x : string) :
  l !! i = Some x ->
  exists pre post,
    positions x 0 l = pre ++ i :: post
    /\ Forall (fun j => j < i /\ l !! j = Some x) pre
    /\ Forall (fun j => i < j < length l /\ l !! j = Some x) post.
Proof.
  intros Hi. pose proof (lookup_lt_Some _ _ _ Hi) as Hlt.
  exists (positions x 0 (take i l)), (positions x (S i) (drop (S i) l)).
  split; [|split].
  - rewrite <- (take_drop_middle l i x Hi) at 1.
    rewrite positions_app. cbn [positions]. rewrite String.eqb_refl.
    rewrite length_take_le by lia. reflexivity.
  - eapply Forall_impl; [apply positions_bounds|].
    intros j [Hj Hx]. rewrite length_take_le in Hj by lia.
    rewrite Nat.sub_0_r in Hx. split; [lia|].
    rewrite lookup_take_Some in Hx. tauto.
  - eapply Forall_impl; [apply positions_bounds|].
    intros j [Hj Hx]. rewrite length_drop in Hj. split; [lia|].
    rewrite lookup_drop in Hx. now replace (S i + (j - S i)) with j in Hx by lia.
Qed.

Lemma scan_row_fst (i n : nat) (j2len : gmap nat nat) (js : list nat)
    (new : gmap nat nat) (best : Difflib.Match) :
  Forall (fun j => j < n) js ->
  (Difflib.scan_row i 0 n j2len js new best).1 = fill j2len js new.
Proof.
  intros Hjs. revert new best.
  induction Hjs as [|j js Hj _ IH]; intros new [[bi bj] bs]; [reflexivity|].
  cbn [Difflib.scan_row fill foldl]. fold (cell j2len j).
  replace (j <? 0) with false by (symmetry; now apply Nat.ltb_ge; lia).
  replace (n <=? j) with false by (symmetry; apply Nat.leb_gt; lia).
  destruct (bs <? cell j2len j); apply IH.
Qed.

(** The inner loop over indices whose lengths do not beat the best
    match leaves the best match as it is. *)
Lemma scan_row_quiet (i n : nat) (j2len : gmap nat nat) (js : list nat)
    (new : gmap nat nat) (bi bj bs : nat) :
  Forall (fun j => j < n /\ cell j2len j <= bs) js ->
  Difflib.scan_row i 0 n j2len js new (bi, bj, bs)
  = (fill j2len js new, (bi, bj, bs)).
Proof.
  intros Hjs. revert new.
  induction Hjs as [|j js [Hj Hk] _ IH]; intros new; [reflexivity|].
  cbn [Difflib.scan_row fill foldl]. fold (cell j2len j).
  replace (j <? 0) with false by (symmetry; now apply Nat.ltb_ge; lia).
  replace (n <=? j) with false by (symmetry; apply Nat.leb_gt; lia).
  replace (bs <? cell j2len j) with false
    by (symmetry; apply Nat.ltb_ge; lia).
  apply IH.
Qed.

Lemma scan_row_app (i n : nat) (j2len : gmap nat nat) (js1 js2 : list nat)
    (new : gmap nat nat) (best : Difflib.Match) :
  Forall (fun j => j < n) js1 ->
  Difflib.scan_row i 0 n j2len (js1 ++ js2) new best
  = Difflib.scan_row i 0 n j2len js2
      (Difflib.scan_row i 0 n j2len js1 new best).1
      (Difflib.scan_row i 0 n j2len js1 new best).2.
Proof.
  intros Hjs. revert new best.
  induction Hjs as [|j js Hj _ IH]; intros new [[bi bj] bs]; [reflexivity|].
  cbn [app Difflib.scan_row].
  replace (j <? 0) with false by (symmetry; now apply Nat.ltb_ge; lia).
  replace (n <=? j) with false by (symmetry; apply Nat.leb_gt; lia).
  destruct (bs <? Difflib.j2lenget j2len j + 1); apply IH.
Qed.

Lemma fill_lookup (j2len : gmap nat nat) (js : list nat)
    (new : gmap nat nat) (j : nat) :
  fill j2len js new !! j
  = if decide (j ∈ js) then Some (cell j2len j) else new !! j.
Proof.
  revert new. induction js as [|j' js IH]; intros new.
  - cbn. destruct (decide (j ∈ [])) as [Hin|_]; [|reflexivity].
    now apply elem_of_nil in Hin.
  - cbn [fill foldl]. fold (fill j2len js (<[j' := cell j2len j']> new)).
    rewrite IH. destruct (decide (j ∈ js)) as [Hin|Hnin].
    + rewrite decide_True by now right. reflexivity.
    + destruct (decide (j = j')) as [->|Hne].
      * rewrite decide_True by now left. now rewrite lookup_insert_eq.
      * rewrite decide_False.
        -- now rewrite lookup_insert_ne.
        -- intros Hin. apply elem_of_cons in Hin as [?|?]; contradiction.
Qed.

Lemma run_le (l : list string) (i : nat) : run l i <= S i.
Proof.
  induction i as [|i IH]; simpl.
  - destruct (live l 0); lia.
  - destruct (live l (S i)); lia.
Qed.

Lemma run_live (l : list string) (i : nat) :
  live l i = true -> run l i = S (prev_run l i).
Proof. intros H. destruct i; simpl; now rewrite H. Qed.

Lemma run_dead (l : list string) (i : nat) :
  live l i = false -> run l i = 0.
Proof. intros H. destruct i; simpl; now rewrite H. Qed.

(** Lines that are equal are looked for at the same indices. *)
Lemma indices_of_same (l : list string) (i j : nat) (x : string) :
  l !! i = Some x -> l !! j = Some x ->
  Difflib.indices_of l l j = Difflib.indices_of l l i.
Proof. intros Hi Hj. unfold Difflib.indices_of. now rewrite Hi, Hj. Qed.

Lemma j2lenget_empty (j : nat) : Difflib.j2lenget ∅ j = 0.
Proof. destruct j; [reflexivity|]. cbn. now rewrite lookup_empty. Qed.

(** One row of [find_longest_match] on a text and itself keeps the
    best match on the diagonal. *)
Lemma scan_row_inv (l : list string) (i : nat) (j2len : gmap nat nat)
    (best : Difflib.Match) :
  i < length l ->
  row_inv l i j2len ->
  best_inv l i best ->
  let out :=
    Difflib.scan_row i 0 (length l) j2len (Difflib.indices_of l l i) ∅ best in
  row_inv l (S i) out.1 /\ best_inv l (S i) out.2.
Proof.
  intros Hi (Hj1 & Hj2 & Hj3) Hbest. destruct best as [[bi bj] bs].
  destruct Hbest as (Hdiag & Hlow & Hruns).
  destruct (indices_of_positions l i) as [Hnil | (x & Hx & Hpos)].
  - (* line [i] is not looked for *)
    assert (Hdead : run l i = 0).
    { apply run_dead. unfold live. now rewrite Hnil. }
    rewrite Hnil. cbn [Difflib.scan_row fst snd]. split.
    + unfold row_inv. setoid_rewrite j2lenget_empty.
      repeat split; try (intros; lia). cbn. now rewrite Hdead.
    + cbn. repeat split; [assumption | lia |].
      intros i' Hi'. destruct (decide (i' = i)) as [->|Hne].
      * lia.
      * apply Hruns. lia.
  - destruct (positions_split l i x Hx) as (pre & post & Hsplit & Hpre & Hpost).
    assert (Hlive : forall j, l !! j = Some x -> live l j = true).
    { intros j Hj. unfold live.
      rewrite (indices_of_same l i j x Hx Hj), Hpos, Hsplit.
      now destruct pre. }
    assert (Hcell : forall j, l !! j = Some x ->
              cell j2len j <= run l j /\ cell j2len j <= run l i).
    { intros j Hj. rewrite (run_live _ _ (Hlive j Hj)).
      rewrite (run_live _ _ (Hlive i Hx)). unfold cell.
      specialize (Hj1 j). specialize (Hj2 j). lia. }
    assert (Hdiagcell : cell j2len i = run l i).
    { rewrite (run_live _ _ (Hlive i Hx)). unfold cell. lia. }
    assert (Hall : Forall (fun j => j < length l) (pre ++ i :: post)).
    { apply Forall_app. split.
      - eapply Forall_impl; [exact Hpre|]. intros j [Hj _]. lia.
      - constructor; [exact Hi|].
        eapply Forall_impl; [exact Hpost|]. intros j [Hj _]. lia. }
    rewrite Hpos, Hsplit. split.
    + (* the new dictionary *)
      rewrite (scan_row_fst _ _ _ _ _ _ Hall).
      assert (Hval : forall j,
                default 0 (fill j2len (pre ++ i :: post) ∅ !! j) <= run l j
                /\ default 0 (fill j2len (pre ++ i :: post) ∅ !! j)
                   <= run l i).
      { intros j. rewrite fill_lookup.
        destruct (decide (j ∈ pre ++ i :: post)) as [Hin|_].
        - assert (Hj : l !! j = Some x).
          { apply elem_of_app in Hin as [Hin|Hin].
            - rewrite Forall_forall in Hpre. now apply Hpre.
            - apply elem_of_cons in Hin as [->|Hin]; [exact Hx|].
              rewrite Forall_forall in Hpost. now apply Hpost. }
          cbn. now apply Hcell.
        - rewrite lookup_empty. cbn. lia. }
      unfold row_inv. repeat split.
      * intros [|j]; cbn; [lia | apply Hval].
      * intros [|j]; cbn; [lia | apply Hval].
      * cbn. rewrite fill_lookup. rewrite decide_True.
        -- cbn. exact Hdiagcell.
        -- apply elem_of_app. right. now left.
    + (* the best match *)
      rewrite scan_row_app
        by (eapply Forall_impl; [exact Hpre|]; intros j [Hj _]; lia).
      rewrite (scan_row_quiet i (length l) j2len pre ∅ bi bj bs).
      2:{ eapply Forall_impl; [exact Hpre|]. intros j [Hj Hjx]. split; [lia|].
          destruct (Hcell j Hjx) as [Hc _]. specialize (Hruns j Hj). lia. }
      cbn [fst snd Difflib.scan_row]. fold (cell j2len i).
      replace (i <? 0) with false by (symmetry; now apply Nat.ltb_ge; lia).
      replace (length l <=? i) with false by (symmetry; apply Nat.leb_gt; lia).
      pose proof (run_le l i) as Hrle.
      destruct (bs <? cell j2len i) eqn:Hlt.
      * apply Nat.ltb_lt in Hlt.
        rewrite (scan_row_quiet i (length l) j2len post _ _ _ (cell j2len i)).
        2:{ eapply Forall_impl; [exact Hpost|]. intros j [Hj Hjx].
            split; [lia|]. destruct (Hcell j Hjx) as [_ Hc]. lia. }
        cbn. repeat split; [lia|].
        intros i' Hi'. destruct (decide (i' = i)) as [->|Hne]; [lia|].
        assert (run l i' <= bs) by (apply Hruns; lia). lia.
      * apply Nat.ltb_ge in Hlt.
        rewrite (scan_row_quiet i (length l) j2len post _ bi bj bs).
        2:{ eapply Forall_impl; [exact Hpost|]. intros j [Hj Hjx].
            split; [lia|]. destruct (Hcell j Hjx) as [_ Hc]. lia. }
        cbn. repeat split; [assumption | lia |].
        intros i' Hi'. destruct (decide (i' = i)) as [->|Hne]; [lia|].
        apply Hruns. lia.
Qed.

(** After the rows below [m], the best match lies on the diagonal. *)
Lemma scan_rows_inv (l : list string) (m : nat) :
  m <= length l ->
  let out :=
    fold_left
      (fun (st : gmap nat nat * Difflib.Match) (i : nat) =>
         Difflib.scan_row i 0 (length l) st.1 (Difflib.indices_of l l i) ∅ st.2)
      (seq 0 m) (∅, (0, 0, 0)) in
  row_inv l m out.1 /\ best_inv l m out.2.
Proof.
  induction m as [|m IH]; intros Hm.
  - cbn. split.
    + unfold row_inv. setoid_rewrite j2lenget_empty.
      repeat split; intros; cbn; lia.
    + repeat split; try lia.
  - rewrite seq_S, fold_left_app. cbn [fold_left Nat.add].
    destruct IH as [Hrow Hbest]; [lia|].
    apply scan_row_inv; [lia | exact Hrow | exact Hbest].
Qed.

Lemma same_item_diag (l : list string) (i : nat) :
  i < length l -> Difflib.same_item l l i i = true.
Proof.
  intros Hi. unfold Difflib.same_item.
  destruct (lookup_lt_is_Some_2 l i Hi) as [x ->]. apply String.eqb_refl.
Qed.

Lemma junk_at_false (l : list string) (j : nat) : Difflib.junk_at l j = false.
Proof. unfold Difflib.junk_at. now destruct (l !! j). Qed.

(** On the diagonal the match grows down to the first line... *)
Lemma extend_low_diag (l : list string) (bi bs : nat) :
  bi <= length l ->
  Difflib.extend_low l l false 0 0 bi bi bs = (0, 0, bs + bi).
Proof.
  revert bs. induction bi as [|i IH]; intros bs Hbi.
  - cbn. now rewrite Nat.add_0_r.
  - cbn [Difflib.extend_low]. rewrite junk_at_false.
    rewrite same_item_diag by lia. cbn. rewrite IH by lia. f_equal. lia.
Qed.

(** ...and up to the last. *)
Lemma extend_high_diag (l : list string) (room s : nat) :
  s <= length l ->
  room = length l - s ->
  Difflib.extend_high l l false (length l) (length l) 0 0 room s
  = (0, 0, length l).
Proof.
  revert s. induction room as [|r IH]; intros s Hs Hroom.
  - cbn. f_equal. lia.
  - cbn [Difflib.extend_high]. rewrite junk_at_false.
    rewrite same_item_diag by lia. cbn [Nat.add].
    replace (s <? length l) with true by (symmetry; apply Nat.ltb_lt; lia).
    cbn. apply IH; lia.
Qed.

(** The longest match of a text with itself is the whole text. *)
Lemma find_longest_match_same (l : list string) :
  Difflib.find_longest_match l l 0 (length l) 0 (length l)
  = (0, 0, length l).
Proof.
  unfold Difflib.find_longest_match, Difflib.scan_rows.
  rewrite Nat.sub_0_r.
  destruct (scan_rows_inv l (length l) (Nat.le_refl _)) as [_ Hbest].
  destruct (fold_left _ _ _) as [j2len [[bi bj] bs]].
  cbn [snd] in *. destruct Hbest as (<- & Hlow & _).
  unfold Difflib.grow at 2. rewrite extend_low_diag by lia.
  rewrite extend_high_diag by lia.
  unfold Difflib.grow. cbn [Difflib.extend_low].
  now rewrite Nat.add_0_l, Nat.sub_diag.
Qed.

Lemma matching_loop_nil (a b : list string) (fuel : nat)
    (blocks : list Difflib.Match) :
  (Difflib.matching_loop a b fuel [] blocks).2 = blocks.
Proof. now destruct fuel. Qed.

Lemma get_matching_blocks_same (l : list string) :
  Difflib.get_matching_blocks l l
  = match l with
    | [] => [(0, 0, 0)]
    | _ :: _ => [(0, 0, length l); (length l, length l, 0)]
    end.
Proof.
  unfold Difflib.get_matching_blocks.
  replace (2 * length l + 1) with (S (2 * length l)) by lia.
  cbn [Difflib.matching_loop]. rewrite find_longest_match_same.
  destruct l as [|x r]; [reflexivity|].
  cbn [length Nat.eqb]. rewrite Nat.ltb_irrefl.
  replace (0 + S (length r) <? S (length r)) with false
    by (symmetry; apply Nat.ltb_ge; lia).
  cbn [andb]. rewrite matching_loop_nil. reflexivity.
Qed.

Lemma get_opcodes_same (l : list string) :
  Difflib.get_opcodes l l
  = match l with
    | [] => []
    | _ :: _ => [(Difflib.equal, 0, length l, 0, length l)]
    end.
Proof.
  unfold Difflib.get_opcodes. rewrite get_matching_blocks_same.
  destruct l as [|x r]; [reflexivity|].
  cbn [Difflib.opcodes_from length Nat.eqb Nat.add].
  rewrite !Nat.ltb_irrefl. reflexivity.
Qed.

(** The line diff of a sequence of lines with itself is empty. *)
Lemma unified_diff_same (l : list string) : Difflib.unified_diff l l = [].
Proof.
  unfold Difflib.unified_diff, Difflib.get_grouped_opcodes.
  rewrite get_opcodes_same. destruct l as [|x r]; [reflexivity|].
  cbn [Difflib.trim_first Difflib.trim_last Difflib.group_loop
       Difflib.is_equal andb].
  replace (3 + 3 <? _) with false by (symmetry; apply Nat.ltb_ge; lia).
  reflexivity.
Qed.

Lemma change_of_same_body chain olds news t old_section new_section :
  next_titled t olds = Ok old_section ->
  next_titled t news = Ok new_section ->
  body_of old_section = body_of new_section ->
  change_of chain olds news t = None.
Proof.
  intros Ho Hn Hb. unfold change_of. rewrite Ho, Hn, Hb.
  now rewrite unified_diff_same.
Qed.

Lemma omap_none {A B : Type} (f : A -> option B) (l : list A) :
  Forall (fun x => f x = None) l -> omap f l = [].
Proof.
  induction 1 as [|x l Hx _ IH]; [reflexivity|]. cbn. now rewrite Hx.
Qed.

(** X20: A title whose section has the same lines after its first line in
    both versions is not among the reported section changes, whatever
    the lines are and however often they repeat: the line diff of the
    two bodies is empty. *)
Theorem identical_bodies_not_reported
    (chain : string -> string -> result string)
    (old new title old_section new_section : string) :
  next_titled title (split_sections old) = Ok old_section ->
  next_titled title (split_sections new) = Ok new_section ->
  body_of old_section = body_of new_section ->
  Difflib.unified_diff (body_of old_section) (body_of new_section) = []
  /\ exists stats,
       _calculate_comparison_stats chain old new = Ok stats
       /\ title ∉ changed_titles stats.
Proof.
  intros Ho Hn Hb. split.
  - rewrite Hb. apply unified_diff_same.
  - eexists. split; [apply calculate_comparison_stats_ok|].
    unfold changed_titles. cbn [Stats.section_changes].
    rewrite elem_of_list_to_set.
    intros Ht. apply changed_titles_omap in Ht as [_ [c Hc]].
    now rewrite (change_of_same_body _ _ _ _ _ _ Ho Hn Hb) in Hc.
Qed.

Lemma identical_bodies_not_reported_witness :
  exists stats,
    _calculate_comparison_stats answering_chain a_b_old a_b_new = Ok stats
    /\ "A" ∉ changed_titles stats.
Proof.
  apply (identical_bodies_not_reported answering_chain a_b_old a_b_new "A"
           ("## A" +:+ PyStr.nl +:+ "x" +:+ PyStr.nl +:+ "y" +:+ PyStr.nl)
           ("## A" +:+ PyStr.nl +:+ "x" +:+ PyStr.nl +:+ "y" +:+ PyStr.nl)).
  - reflexivity.
  - reflexivity.
  - reflexivity.
Defined.

(** X21: A text compared with itself gives a report without section
    changes, without added or removed sections and with
    [line_difference] 0; [changed_sections] still counts every title of
    the text. *)
Theorem self_comparison_reports_nothing
    (chain : string -> string -> result string) (text : string) :
  exists stats,
    _calculate_comparison_stats chain text text = Ok stats
    /\ Stats.section_changes stats = []
    /\ Stats.added_sections stats = 0
    /\ Stats.removed_sections stats = 0
    /\ Stats.line_difference stats = 0%Z
    /\ Stats.changed_sections stats = size (old_section_titles text).
Proof.
  eexists. split; [apply calculate_comparison_stats_ok|].
  cbn [Stats.section_changes Stats.added_sections Stats.removed_sections
       Stats.line_difference Stats.changed_sections].
  unfold new_section_titles, old_section_titles.
  set (titles := section_titles (split_sections text)).
  repeat split.
  - apply omap_none. apply Forall_forall. intros t Ht.
    apply elem_of_elements, elem_of_intersection in Ht as [Ht _].
    destruct (next_titled_found _ _ Ht) as (s & Hs & _).
    exact (change_of_same_body chain _ _ t s s Hs Hs eq_refl).
  - replace (titles ∖ titles) with (∅ : gset string); [apply size_empty|].
    apply set_eq. intros t. rewrite elem_of_difference, elem_of_empty. tauto.
  - replace (titles ∖ titles) with (∅ : gset string); [apply size_empty|].
    apply set_eq. intros t. rewrite elem_of_difference, elem_of_empty. tauto.
  - lia.
  - f_equal. apply set_eq. intros t. rewrite elem_of_intersection. tauto.
Qed.

(** ** The matching loop ends *)

Lemma scan_row_within (i alo blo bhi : nat) (j2len : gmap nat nat)
    (js : list nat) (new : gmap nat nat) (best : Difflib.Match) :
  alo <= i ->
  lengths_within (i - alo) blo j2len ->
  lengths_within (S (i - alo)) blo new ->
  match_within (alo, S i, blo, bhi) best ->
  let out := Difflib.scan_row i blo bhi j2len js new best in
  lengths_within (S (i - alo)) blo out.1
  /\ match_within (alo, S i, blo, bhi) out.2.
Proof.
  intros Hi Hold. revert new best.
  induction js as [|j js IH]; intros new best Hnew Hbest; [now split|].
  cbn [Difflib.scan_row].
  destruct (j <? blo) eqn:Hjlo; [now apply IH|].
  destruct (bhi <=? j) eqn:Hjhi; [now split|].
  apply Nat.ltb_ge in Hjlo. apply Nat.leb_gt in Hjhi.
  assert (Hk : Difflib.j2lenget j2len j + 1 <= S (i - alo)
               /\ Difflib.j2lenget j2len j + 1 + blo <= j + 1).
  { destruct j as [|j']; cbn; [lia|].
    destruct (j2len !! j') as [v|] eqn:Hv; cbn; [|lia].
    destruct (Hold j' v Hv). lia. }
  set (k := Difflib.j2lenget j2len j + 1) in *.
  assert (Hnew' : lengths_within (S (i - alo)) blo (<[j := k]> new)).
  { intros j0 v Hv. destruct (decide (j0 = j)) as [->|Hne].
    - rewrite lookup_insert_eq in Hv. injection Hv as <-. lia.
    - rewrite lookup_insert_ne in Hv by congruence. now apply Hnew. }
  destruct best as [[bi bj] bs].
  destruct (bs <? k); apply IH; try assumption.
  cbn. lia.
Qed.

Lemma scan_rows_within (a b : list string) (alo blo bhi m : nat) :
  blo <= bhi ->
  let out :=
    fold_left
      (fun (st : gmap nat nat * Difflib.Match) (i : nat) =>
         Difflib.scan_row i blo bhi st.1 (Difflib.indices_of a b i) ∅ st.2)
      (seq alo m) (∅, (alo, blo, 0)) in
  lengths_within m blo out.1
  /\ match_within (alo, alo + m, blo, bhi) out.2.
Proof.
  intros Hb. induction m as [|m IH].
  - cbn. split; [|lia]. intros j v Hv. now rewrite lookup_empty in Hv.
  - rewrite seq_S, fold_left_app. cbn [fold_left].
    destruct IH as [Hlen Hbest].
    destruct (fold_left _ (seq alo m) _) as [j2len best]. cbn [fst snd] in *.
    replace (alo + S m) with (S (alo + m)) by lia.
    replace (S m) with (S (alo + m - alo)) by lia.
    apply scan_row_within.
    + lia.
    + now replace (alo + m - alo) with m by lia.
    + intros j v Hv. now rewrite lookup_empty in Hv.
    + destruct best as [[bi bj] bs]. cbn in *. lia.
Qed.

Lemma extend_low_within (a b : list string) (junk : bool)
    (alo blo bi bj bs : nat) :
  alo <= bi -> blo <= bj ->
  let '(i, j, k) := Difflib.extend_low a b junk alo blo bi bj bs in
  alo <= i /\ blo <= j /\ i + k = bi + bs /\ j + k = bj + bs.
Proof.
  revert bj bs. induction bi as [|i IH]; intros bj bs Hi Hj.
  - cbn. lia.
  - destruct bj as [|j]; [cbn; lia|]. cbn [Difflib.extend_low].
    destruct ((alo <? S i) && (blo <? S j)
              && Bool.eqb (Difflib.junk_at b j) junk
              && Difflib.same_item a b i j) eqn:Hc; [|lia].
    apply andb_prop in Hc as [Hc _]. apply andb_prop in Hc as [Hc _].
    apply andb_prop in Hc as [Ha Hb].
    apply Nat.ltb_lt in Ha. apply Nat.ltb_lt in Hb.
    specialize (IH j (S bs)).
    destruct (Difflib.extend_low a b junk alo blo i j (S bs)) as [[i' j'] k'].
    destruct IH; lia.
Qed.

Lemma extend_high_within (a b : list string) (junk : bool)
    (ahi bhi bi bj room bs : nat) :
  bi + bs <= ahi -> bj + bs <= bhi ->
  let '(i, j, k) := Difflib.extend_high a b junk ahi bhi bi bj room bs in
  i = bi /\ j = bj /\ i + k <= ahi /\ j + k <= bhi.
Proof.
  revert bs. induction room as [|room IH]; intros bs Hi Hj.
  - cbn. lia.
  - cbn [Difflib.extend_high].
    destruct ((bi + bs <? ahi) && (bj + bs <? bhi)
              && Bool.eqb (Difflib.junk_at b (bj + bs)) junk
              && Difflib.same_item a b (bi + bs) (bj + bs)) eqn:Hc; [|lia].
    apply andb_prop in Hc as [Hc _]. apply andb_prop in Hc as [Hc _].
    apply andb_prop in Hc as [Ha Hb].
    apply Nat.ltb_lt in Ha. apply Nat.ltb_lt in Hb.
    apply IH; lia.
Qed.

Lemma grow_within (a b : list string) (junk : bool)
    (alo ahi blo bhi : nat) (m : Difflib.Match) :
  match_within (alo, ahi, blo, bhi) m ->
  match_within (alo, ahi, blo, bhi) (Difflib.grow a b junk alo ahi blo bhi m).
Proof.
  destruct m as [[bi bj] bs]. intros (Hi & Hik & Hj & Hjk).
  unfold Difflib.grow.
  pose proof (extend_low_within a b junk alo blo bi bj bs Hi Hj) as Hlow.
  destruct (Difflib.extend_low a b junk alo blo bi bj bs) as [[i j] k].
  destruct Hlow as (Hi' & Hj' & Hik' & Hjk').
  pose proof (extend_high_within a b junk ahi bhi i j (ahi - (i + k)) k)
    as Hhigh.
  destruct (Difflib.extend_high a b junk ahi bhi i j (ahi - (i + k)) k)
    as [[i2 j2] k2].
  destruct Hhigh as (-> & -> & Hik2 & Hjk2); [lia | lia |].
  cbn. lia.
Qed.

(** The longest match of a block lies within the block. *)
Lemma find_longest_match_within (a b : list string) (alo ahi blo bhi : nat) :
  valid_block (alo, ahi, blo, bhi) ->
  match_within (alo, ahi, blo, bhi)
    (Difflib.find_longest_match a b alo ahi blo bhi).
Proof.
  intros [Ha Hb]. unfold Difflib.find_longest_match, Difflib.scan_rows.
  do 2 apply grow_within.
  destruct (scan_rows_within a b alo blo bhi (ahi - alo) Hb) as [_ H].
  now replace (alo + (ahi - alo)) with ahi in H by lia.
Qed.

(** Every iteration takes the work list down by one at least: with
    fuel for its measure, the loop ends with an empty work list. *)
Lemma matching_loop_done (a b : list string) (fuel : nat)
    (queue : list Difflib.block) (blocks : list Difflib.Match) :
  Forall valid_block queue ->
  queue_measure queue <= fuel ->
  (Difflib.matching_loop a b fuel queue blocks).1 = [].
Proof.
  revert queue blocks.
  induction fuel as [|fuel IH]; intros queue blocks Hvalid Hfuel.
  - destruct queue as [|[[[alo ahi] blo] bhi] rest]; [reflexivity|].
    cbn in Hfuel. lia.
  - destruct queue as [|[[[alo ahi] blo] bhi] rest]; [reflexivity|].
    apply Forall_cons in Hvalid as [Hblk Hrest].
    cbn [Difflib.matching_loop].
    pose proof (find_longest_match_within a b alo ahi blo bhi Hblk) as Hin.
    destruct (Difflib.find_longest_match a b alo ahi blo bhi) as [[i j] k].
    destruct Hin as (Hi & Hik & Hj & Hjk). cbn [queue_measure] in Hfuel.
    destruct (k =? 0) eqn:Hk.
    + apply IH; [exact Hrest | lia].
    + apply Nat.eqb_neq in Hk. apply IH.
      * destruct ((alo <? i) && (blo <? j));
          destruct ((i + k <? ahi) && (j + k <? bhi));
          repeat (apply Forall_cons; split); try assumption; cbn; lia.
      * destruct ((alo <? i) && (blo <? j));
          destruct ((i + k <? ahi) && (j + k <? bhi));
          cbn [queue_measure]; lia.
Qed.

(** X22: The bound on the iterations of the matching loop of the line
    differ is never reached: for any two sequences of lines the loop
    ends with an empty work list, so the blocks it has found are all
    the blocks of the algorithm. *)
Theorem line_diff_loop_finishes (a b : list string) :
  (Difflib.matching_loop a b (2 * length a + 1)
     [(0, length a, 0, length b)] []).1 = [].
Proof.
  apply matching_loop_done.
  - apply Forall_cons. split; [cbn; lia | constructor].
  - cbn [queue_measure]. lia.
Qed.
